(** * The newq backend: registrations, blog posts, events, subscription

    A shallow embedding of the Express server of [src/index.js] and of its
    sibling entry point [src/unnamed/part_000].  Every route handler is an
    [async] function over two shared stores, the MongoDB collections
    (reached through Mongoose models) and the [uploads] directory on disk
    (reached through [fs] and multer).  The handlers are embedded as
    computations in a state-and-exception monad over those two stores;
    one request is handled at a time.

    What belongs to the libraries and not to the repository is modelled by
    its documented behaviour, each time with a note at the definition:
    Mongoose casting of an id string to an ObjectId, the natural order of
    a collection, the default [validateStatus] of axios, the [$regex]
    operator of MongoDB, the redirections axios follows.  A handler is
    the callback that runs once Express has chosen its route; which
    requests reach which callback is decided by the order in which the
    entry point registers its routes, and [serve] embeds that order. *)

From stdpp Require Import base decidable option list gmap strings pretty sorting.
From Stdlib Require Import ZArith Ascii String Lia.

Local Open Scope string_scope.
Local Open Scope Z_scope.

(** ** ObjectIds

    A Mongo ObjectId is twelve bytes; its string form, the one that
    travels in [req.params.id], is 24 hexadecimal digits.  The id is
    kept as the number those twelve bytes denote, so that two spellings
    that differ in letter case are the same id. *)

Definition ObjectId := N.

Definition hex_digit (c : ascii) : option N :=
  let n := N_of_ascii c in
  if ((48 <=? n) && (n <=? 57))%N then Some (n - 48)%N
  else if ((97 <=? n) && (n <=? 102))%N then Some (n - 87)%N
  else if ((65 <=? n) && (n <=? 70))%N then Some (n - 55)%N
  else None.

Fixpoint hex_value (acc : N) (s : string) : option N :=
  match s with
  | EmptyString => Some acc
  | String c rest =>
      match hex_digit c with
      | Some d => hex_value (16 * acc + d)%N rest
      | None => None
      end
  end.

(** Mongoose casts the string it is given for an [_id] path.  A string of
    24 hexadecimal digits is an ObjectId; any other string makes the
    query throw a CastError before the database is asked.  (Some driver
    versions also take a string of exactly twelve characters as twelve
    raw bytes; that spelling is counted as malformed here.) *)
Definition castObjectId (s : string) : option ObjectId :=
  if (String.length s =? 24)%nat then hex_value 0%N s else None.

(** ** Schemas *)

(** [RegSchema]: five optional strings and the [check] flag, which
    defaults to [false]. *)
Module User.
Record t := mk {
    _id : ObjectId;
    name : option string;
    email : option string;
    location : option string;
    church : option string;
    phone : option string;
    check : bool
}.
End User.

(** [blogSchema], with [timestamps: true]: Mongoose maintains [createdAt]
    and [updatedAt] (milliseconds since the epoch). *)
Module Blog.
Record t := mk {
    _id : ObjectId;
    title : option string;
    content : option string;
    image : string;
    createdAt : Z;
    updatedAt : Z
}.
End Blog.

(** [eventSchema].  [date] is a Date: [None] when the event has none. *)
Module Event.
Record t := mk {
    _id : ObjectId;
    title : option string;
    date : option Z;
    time : option string;
    image : string
}.
End Event.

#[global] Instance user_eq_dec : EqDecision User.t.
Proof. solve_decision. Defined.
#[global] Instance blog_eq_dec : EqDecision Blog.t.
Proof. solve_decision. Defined.
#[global] Instance event_eq_dec : EqDecision Event.t.
Proof. solve_decision. Defined.

(** ** The two stores

    A collection is the list of its documents in natural order, the order
    of insertion; a document that is updated keeps its place.  The disk
    is the set of paths of the regular files in the working directory of
    the server. *)

Record Server := mkServer {
  users : list User.t;
  blogs : list Blog.t;
  events : list Event.t;
  files : gset string
}.

(** ** Errors and the handler monad *)

Inductive exn :=
| CastError (value : string)          (* Mongoose: Cast to ObjectId / to date failed *)
| DuplicateKey (id : ObjectId)        (* MongoDB E11000 on [_id] *)
| BadSkip (n : Z)                     (* MongoDB: skip must be non-negative *)
| ENOENT (path : string)              (* fs.unlinkSync on a missing file *)
| AxiosStatus (status : Z)            (* axios: Request failed with status code ... *)
| AxiosNetwork                        (* axios: no response was received *)
| AxiosRedirects.                     (* axios: Maximum number of redirects exceeded *)

(** A computation runs on the stores and either returns a value or
    throws; what it did to the stores before throwing stays done. *)
Definition M (A : Type) : Type := Server → (exn + A) * Server.

#[global] Instance M_ret : MRet M := λ A (a : A) s, (inr a, s).
#[global] Instance M_bind : MBind M := λ A B (f : A → M B) (m : M A) s,
  match m s with
  | (inr a, s') => f a s'
  | (inl e, s') => (inl e, s')
  end.

Definition throw {A} (e : exn) : M A := λ s, (inl e, s).

(** [try { body } catch (error) { handler }] *)
Definition try_catch {A} (body : M A) (handler : exn → M A) : M A := λ s,
  match body s with
  | (inr a, s') => (inr a, s')
  | (inl e, s') => handler e s'
  end.

(** ** Mongoose models over a collection

    The operations are the same for the three models; they are written
    once over a document type [T] and its [_id] projection.  MongoDB keeps
    [_id] unique within a collection: [unique_ids] states it, [insert]
    enforces it. *)

Section Collection.
Context {T : Type} (oid : T → ObjectId).

Fixpoint find_by_id (i : ObjectId) (c : list T) : option T :=
  match c with
  | [] => None
  | d :: c' => if decide (oid d = i) then Some d else find_by_id i c'
  end.

(** deleteOne: the first document with that [_id] goes. *)
Fixpoint delete_by_id (i : ObjectId) (c : list T) : list T :=
  match c with
  | [] => []
  | d :: c' => if decide (oid d = i) then c' else d :: delete_by_id i c'
  end.

(** updateOne: the first document with that [_id] becomes [f d], in
    place. *)
Fixpoint update_by_id (i : ObjectId) (f : T → T) (c : list T) : list T :=
  match c with
  | [] => []
  | d :: c' => if decide (oid d = i) then f d :: c' else d :: update_by_id i f c'
  end.

(** insertOne: the document goes to the end, unless its [_id] is taken. *)
Definition insert (d : T) (c : list T) : exn + list T :=
  match find_by_id (oid d) c with
  | Some _ => inl (DuplicateKey (oid d))
  | None => inr (c ++ [d])%list
  end.

Definition unique_ids (c : list T) : Prop := NoDup (oid <$> c).

End Collection.


(** [Model.findById(id)] on the string of the route: a CastError for a
    malformed id, else the document or [null]. *)
Definition findById {T} (oid : T → ObjectId) (coll : Server → list T)
    (id : string) : M (option T) := λ s,
  match castObjectId id with
  | None => (inl (CastError id), s)
  | Some i => (inr (find_by_id oid i (coll s)), s)
  end.

(** ** The disk

    [fs.existsSync] and [fs.unlinkSync] on the set of paths of the files
    that exist; unlinking a path that is not there throws. *)

Definition existsSync (p : string) : M bool := λ s,
  (inr (bool_decide (p ∈ files s)), s).

Definition unlinkSync (p : string) : M unit := λ s,
  if decide (p ∈ files s)
  then (inr tt, mkServer (users s) (blogs s) (events s) (files s ∖ {[p]}))
  else (inl (ENOENT p), s).

(** A JavaScript string used as a condition: only the empty string is
    falsy. *)
Definition truthy (x : string) : bool := negb (String.eqb x "").

(** The guard that every handler that removes an image is written with:
    [if (doc.image && fs.existsSync(doc.image)) fs.unlinkSync(doc.image)]. *)
Definition remove_image (image : string) : M unit :=
  if truthy image then
    e ← existsSync image;
    if e : bool then unlinkSync image else mret tt
  else mret tt.

(** ** multer

    [upload.single('image')] runs before the handler.  When the request
    carries a part named [image] the disk storage engine writes it under
    [uploads], named by the clock and by the extension of the name the
    client gave, and the handler sees its path in [req.file.path].  The
    extension is the result of [path.extname(file.originalname)], a plain
    string: the part is represented by it.  [Date.now() + extension] is
    the decimal text of the clock followed by the extension; the path
    joins it to the destination with the POSIX separator. *)

Record Upload := { extname_originalname : string }.

Definition filename (now : Z) (file : Upload) : string :=
  pretty now +:+ extname_originalname file.

Definition upload_single (now : Z) (part : option Upload) : M (option string) := λ s,
  match part with
  | None => (inr None, s)
  | Some file =>
      let path := "uploads/" +:+ filename now file in
      (inr (Some path),
       mkServer (users s) (blogs s) (events s) ({[path]} ∪ files s))
  end.

(** ** Requests and responses *)

(** A parsed JSON body ([express.json()]); numbers are the integers. *)
#[warnings="-register-all"] Inductive json :=
| JNull
| JBool (b : bool)
| JNumber (n : Z)
| JString (s : string)
| JArray (items : list json)
| JObject (members : list (string * json)).

(** [body.key]: [undefined] ([None]) when the body is not an object or
    has no such member; of a repeated member the last one counts. *)
Fixpoint assoc_last (k : string) (ms : list (string * json)) : option json :=
  match ms with
  | [] => None
  | (k', v) :: ms' =>
      match assoc_last k ms' with
      | Some w => Some w
      | None => if String.eqb k k' then Some v else None
      end
  end.

Definition member (k : string) (body : json) : option json :=
  match body with
  | JObject ms => assoc_last k ms
  | _ => None
  end.

(** [!v] *)
Definition falsy (v : option json) : bool :=
  match v with
  | None | Some JNull | Some (JBool false) | Some (JNumber 0) => true
  | Some (JString s) => String.eqb s ""
  | _ => false
  end.

Inductive Body :=
| Empty
| Message (message : string)
| MessageError (message : string) (error : exn)
| MessageData (message : string) (data : json)
| MessageUser (message : string) (user : User.t)
| Error (error : string)
| OneBlog (blog : Blog.t)
| BlogList (blogs : list Blog.t)
| BlogPage (blogs : list Blog.t) (total : Z)
| OneEvent (event : Event.t)
| EventList (events : list Event.t).

Record Response := { status : Z; body : Body }.

(** What a request brings from outside the two stores.  The clock is
    read at two places: [now] is [Date.now()] when multer names the
    upload (and [new Date()] in the listing of events), [saveTime] is the
    clock when Mongoose stamps the document at [save()], somewhat later.
    [newId] is the ObjectId that [new Model(...)] draws. *)
Record Env := { now : Z; saveTime : Z; newId : ObjectId }.

(** The two entry points.  Where they define the same route with the
    same body, [src/index.js] wraps it in [try]/[catch] and
    [src/unnamed/part_000] does not. *)
Inductive Source := index_js | part_000.

Definition guarded (src : Source) (body : M Response)
    (handler : exn → M Response) : M Response :=
  match src with
  | index_js => try_catch body handler
  | part_000 => body
  end.

Definition set_users (f : list User.t → list User.t) (s : Server) : Server :=
  mkServer (f (users s)) (blogs s) (events s) (files s).
Definition set_blogs (f : list Blog.t → list Blog.t) (s : Server) : Server :=
  mkServer (users s) (f (blogs s)) (events s) (files s).
Definition set_events (f : list Event.t → list Event.t) (s : Server) : Server :=
  mkServer (users s) (blogs s) (f (events s)) (files s).

(** ** Registration check-in: PATCH /api/register/:id
    ([src/index.js] 74-91, [src/unnamed/part_000] 88-105) *)

Definition set_check (u : User.t) : User.t :=
  User.mk (User._id u) (User.name u) (User.email u) (User.location u)
          (User.church u) (User.phone u) true.

(** [User.findByIdAndUpdate(id, { check: true }, { new: true })] *)
Definition findByIdAndUpdate_check (id : string) : M (option User.t) := λ s,
  match castObjectId id with
  | None => (inl (CastError id), s)
  | Some i =>
      let s' := set_users (update_by_id User._id i set_check) s in
      (inr (find_by_id User._id i (users s')), s')
  end.

Definition patch_register (id : string) (req_body : json) : M Response :=
  try_catch
    (updatedUser ← findByIdAndUpdate_check id;
     match updatedUser with
     | None => mret {| status := 404; body := Message "User not found" |}
     | Some u =>
         mret {| status := 200;
                 body := MessageUser "User checked in successfully" u |}
     end)
    (λ error, mret {| status := 400;
                      body := MessageError "Error updating user" error |}).

(** ** Blog posts *)

(** The fields of the multipart form that the handlers read. *)
Record BlogForm := {
  form_title : option string;
  form_content : option string;
  form_image : option Upload
}.

(** [new Blog(...).save()]: timestamps are set, the document is
    inserted. *)
Definition save_new_blog (b : Blog.t) : M unit := λ s,
  match insert Blog._id b (blogs s) with
  | inl e => (inl e, s)
  | inr c => (inr tt, set_blogs (λ _, c) s)
  end.

(** POST /api/blogs ([src/index.js] 115-126, [src/unnamed/part_000]
    170-177), on a form whose fields are text.  The name of the upload
    is made from the clock as multer's [filename] reads it; the
    timestamps are set when [save()] runs, from a later reading. *)
Definition post_blogs (src : Source) (env : Env) (form : BlogForm) : M Response :=
  file ← upload_single (now env) (form_image form);
  let image := match file with Some path => path | None => "" end in
  let newBlog := Blog.mk (newId env) (form_title form) (form_content form)
                         image (saveTime env) (saveTime env) in
  guarded src
    (save_new_blog newBlog;;
     mret {| status := 201; body := OneBlog newBlog |})
    (λ error, mret {| status := 400;
                      body := MessageError "Error creating blog post" error |}).

(** The callback of GET /api/blogs/:id ([src/index.js] 140-151,
    [src/unnamed/part_000] 212-219).  Which requests reach it is for
    [serve] to say: in [src/index.js] it also takes [/api/blogs/main]
    and [/api/blogs/search]; in [src/unnamed/part_000] the catch-all
    registered before it takes every GET request. *)
Definition get_blog (src : Source) (id : string) : M Response :=
  guarded src
    (blog ← findById Blog._id blogs id;
     match blog with
     | Some b => mret {| status := 200; body := OneBlog b |}
     | None => mret {| status := 404; body := Error "Blog not found" |}
     end)
    (λ error, mret {| status := 500;
                      body := MessageError "Error fetching blog" error |}).

(** [Blog.findByIdAndDelete(id)] *)
Definition findByIdAndDelete_blog (id : string) : M (option Blog.t) := λ s,
  match castObjectId id with
  | None => (inl (CastError id), s)
  | Some i =>
      (inr (find_by_id Blog._id i (blogs s)),
       set_blogs (delete_by_id Blog._id i) s)
  end.

(** DELETE /api/blogs/:id ([src/index.js] 154-170,
    [src/unnamed/part_000] 222-234) *)
Definition delete_blogs (src : Source) (id : string) : M Response :=
  guarded src
    (blog ← findById Blog._id blogs id;
     match blog with
     | Some b =>
         remove_image (Blog.image b);;
         findByIdAndDelete_blog id;;
         mret {| status := 204; body := Empty |}
     | None => mret {| status := 404; body := Error "Blog not found" |}
     end)
    (λ error, mret {| status := 500;
                      body := MessageError "Error deleting blog" error |}).

(** [a || b] on strings that may be [undefined]. *)
Definition or_else (a b : option string) : option string :=
  match a with
  | Some x => if truthy x then Some x else b
  | None => b
  end.

(** [blog.save()] on a document that was loaded and whose paths hold
    text: nothing is written when no path was modified; otherwise
    [updatedAt] is set and the document replaces the stored one.  A
    value that cannot be cast makes [save()] reject before anything is
    written; [put_blogs_raw] raises it ahead of this step. *)
Definition save_blog (t : Z) (loaded edited : Blog.t) : M Blog.t := λ s,
  if decide (edited = loaded) then (inr loaded, s)
  else
    let saved := Blog.mk (Blog._id edited) (Blog.title edited)
                   (Blog.content edited) (Blog.image edited)
                   (Blog.createdAt edited) t in
    (inr saved, set_blogs (update_by_id Blog._id (Blog._id loaded) (λ _, saved)) s).

(** PUT /api/blogs/:id ([src/index.js] 173-199, [src/unnamed/part_000]
    237-259), on a form whose fields are text *)
Definition put_blogs (src : Source) (env : Env) (id : string)
    (form : BlogForm) : M Response :=
  file ← upload_single (now env) (form_image form);
  guarded src
    (blog ← findById Blog._id blogs id;
     match blog with
     | None => mret {| status := 404; body := Error "Blog not found" |}
     | Some b =>
         image ← match file with
                 | Some path => remove_image (Blog.image b);; mret path
                 | None => mret (Blog.image b)
                 end;
         let edited := Blog.mk (Blog._id b)
                         (or_else (form_title form) (Blog.title b))
                         (or_else (form_content form) (Blog.content b))
                         image (Blog.createdAt b) (Blog.updatedAt b) in
         saved ← save_blog (saveTime env) b edited;
         mret {| status := 200; body := OneBlog saved |}
     end)
    (λ error, mret {| status := 500;
                      body := MessageError "Error updating blog" error |}).

(** ** Paged listing and search of blog posts ([src/unnamed/part_000])

    The two callbacks, as they would run.  [src/unnamed/part_000]
    registers [app.get('*')] before them (line 30), so no request
    reaches them: see [serve]. *)

(** [req.query] of the two listing routes.  A parameter that is present
    is represented by the number that JavaScript's conversion gives for
    its text ([Number(limit)], [page - 1]); the model covers the
    parameters whose number is an integer. *)
Record PageQuery := { page : option Z; limit : option Z }.

(** [Blog.find(filter).skip(skip).limit(limit)] in natural order.
    MongoDB refuses a negative skip, reads a limit of zero as no limit
    and a negative limit as its absolute value. *)
Definition find_blogs (P : Blog.t → bool) (skip lim : Z) : M (list Blog.t) := λ s,
  if skip <? 0 then (inl (BadSkip skip), s)
  else
    let rest := drop (Z.to_nat skip) (List.filter P (blogs s)) in
    (inr (if lim =? 0 then rest else take (Z.to_nat (Z.abs lim)) rest), s).

Definition countDocuments : M Z := λ s, (inr (Z.of_nat (List.length (blogs s))), s).

(** The callback of GET /api/blogs/main ([src/unnamed/part_000]
    186-195) *)
Definition get_blogs_main (q : PageQuery) : M Response :=
  let page := default 1 (page q) in
  let limit := default 28 (limit q) in
  blogs ← find_blogs (λ _, true) ((page - 1) * limit) limit;
  total ← countDocuments;
  mret {| status := 200; body := BlogPage blogs total |}.

(** *** The [$regex] operator, on the patterns the model reads

    MongoDB hands the pattern to a Perl-compatible matcher and looks for
    a match anywhere in the field.  The model reads the patterns made of
    ordinary printable ASCII characters and of the dot; a pattern with
    any other special character of the syntax, a control character or a
    character beyond ASCII is outside it ([compile] answers [None]).
    Text is ASCII: letter case is folded on [A]-[Z] only. *)

Inductive atom := Lit (c : ascii) | Dot.

Definition special : string := "\^$[]|()?*+{}".

Definition printable (c : ascii) : bool :=
  ((32 <=? N_of_ascii c) && (N_of_ascii c <? 127))%N.

Fixpoint occurs (c : ascii) (s : string) : bool :=
  match s with
  | EmptyString => false
  | String x s' => Ascii.eqb c x || occurs c s'
  end.

Fixpoint compile (q : string) : option (list atom) :=
  match q with
  | EmptyString => Some []
  | String c q' =>
      if occurs c special || negb (printable c) then None
      else
        match compile q' with
        | Some p => Some ((if Ascii.eqb c "." then Dot else Lit c) :: p)
        | None => None
        end
  end.

Definition lower (c : ascii) : ascii :=
  let n := N_of_ascii c in
  if ((65 <=? n) && (n <=? 90))%N then ascii_of_N (n + 32) else c.

(** With [$options: 'i'] a literal matches in either case; the dot
    matches any character but the line feed. *)
Definition atom_match (a : atom) (c : ascii) : bool :=
  match a with
  | Lit x => Ascii.eqb (lower x) (lower c)
  | Dot => negb (Ascii.eqb c "010")
  end.

Fixpoint match_here (p : list atom) (t : string) : bool :=
  match p, t with
  | [], _ => true
  | a :: p', String c t' => atom_match a c && match_here p' t'
  | _ :: _, EmptyString => false
  end.

Fixpoint regex_test (p : list atom) (t : string) : bool :=
  match_here p t
  || match t with
     | String _ t' => regex_test p t'
     | EmptyString => false
     end.

(** [{ title: { $regex: searchQuery, $options: 'i' } }]: a post without
    a title does not match. *)
Definition title_matches (p : list atom) (b : Blog.t) : bool :=
  match Blog.title b with
  | Some t => regex_test p t
  | None => false
  end.

Record SearchQuery := { searchQuery : string; paging : PageQuery }.

(** The callback of GET /api/blogs/search ([src/unnamed/part_000]
    198-208).  [None]: the pattern is outside the model. *)
Definition get_blogs_search (q : SearchQuery) : option (M Response) :=
  match compile (searchQuery q) with
  | None => None
  | Some p =>
      let page := default 1 (page (paging q)) in
      let limit := default 28 (limit (paging q)) in
      Some (blogs ← find_blogs (title_matches p) ((page - 1) * limit) limit;
            mret {| status := 200; body := BlogList blogs |})
  end.

(** ** Events ([src/index.js]) *)

(** The [date] field of the form after Mongoose has cast it to a Date. *)
Inductive DateField := NoDate | DateAt (ms : Z) | BadDate (raw : string).

Record EventForm := {
  event_title : option string;
  event_date : DateField;
  event_time : option string;
  event_image : option Upload
}.

Definition save_new_event (e : Event.t) : M unit := λ s,
  match insert Event._id e (events s) with
  | inl err => (inl err, s)
  | inr c => (inr tt, set_events (λ _, c) s)
  end.

(** POST /api/events ([src/index.js] 252-263).  A date that cannot be
    cast makes [save()] fail validation. *)
Definition post_events (env : Env) (form : EventForm) : M Response :=
  file ← upload_single (now env) (event_image form);
  let image := match file with Some path => path | None => "" end in
  try_catch
    (date ← match event_date form with
            | NoDate => mret None
            | DateAt ms => mret (Some ms)
            | BadDate raw => throw (CastError raw)
            end;
     let newEvent := Event.mk (newId env) (event_title form) date
                              (event_time form) image in
     save_new_event newEvent;;
     mret {| status := 201; body := OneEvent newEvent |})
    (λ error, mret {| status := 400;
                      body := MessageError "Error creating event" error |}).

(** [{ date: { $gte: now } }] *)
Definition date_gte (t : Z) (e : Event.t) : bool :=
  match Event.date e with
  | Some d => t <=? d
  | None => false
  end.

(** The order of [sort({ date: 1 })]; a missing date sorts first. *)
Definition date_le (a b : Event.t) : Prop :=
  match Event.date a, Event.date b with
  | None, _ => True
  | Some _, None => False
  | Some x, Some y => x ≤ y
  end.

#[global] Instance date_le_dec a b : Decision (date_le a b).
Proof. unfold date_le. destruct (Event.date a), (Event.date b); apply _. Defined.

(** [Event.find({ date: { $gte: new Date() } }).sort({ date: 1 })].  The
    order MongoDB gives to events of equal date is not specified; the
    merge sort is one admissible choice. *)
Definition find_upcoming (t : Z) : M (list Event.t) := λ s,
  (inr (merge_sort date_le (List.filter (date_gte t) (events s))), s).

(** GET /api/events ([src/index.js] 266-273) *)
Definition get_events (env : Env) : M Response :=
  try_catch
    (events ← find_upcoming (now env);
     mret {| status := 200; body := EventList events |})
    (λ error, mret {| status := 500;
                      body := MessageError "Error fetching events" error |}).

Definition findByIdAndDelete_event (id : string) : M (option Event.t) := λ s,
  match castObjectId id with
  | None => (inl (CastError id), s)
  | Some i =>
      (inr (find_by_id Event._id i (events s)),
       set_events (delete_by_id Event._id i) s)
  end.

(** DELETE /api/events/:id ([src/index.js] 276-292) *)
Definition delete_events (id : string) : M Response :=
  try_catch
    (event ← findById Event._id events id;
     match event with
     | Some e =>
         remove_image (Event.image e);;
         findByIdAndDelete_event id;;
         mret {| status := 204; body := Empty |}
     | None => mret {| status := 404; body := Error "Event not found" |}
     end)
    (λ error, mret {| status := 500;
                      body := MessageError "Error deleting event" error |}).

(** ** The mailing-list subscription: POST /api/subscribe
    ([src/index.js] 202-238, [src/unnamed/part_000] 109-145, 262-298)

    [src/unnamed/part_000] registers the route twice; its first callback
    calls the [us14] data centre and its second one is the callback of
    [src/index.js], which calls [us21]. *)

Record Config := { MAILCHIMP_AUDIENCE_ID : string; MAILCHIMP_API_KEY : string }.

(** What comes back for one request: a reply with a status and a
    payload, no reply at all, or a reply of the 3xx range that carries a
    [Location], together with what the request that axios then sends to
    that location gets in turn.  [Replied] with a status of the 3xx range
    is a reply without [Location], which axios does not follow. *)
Inductive Reply :=
| Replied (status : Z) (data : json)
| NoReply
| Redirect (status : Z) (target : Reply).

Record AxiosRequest := { url : string; authorization : string; data : json }.

Record AxiosResponse := { response_status : Z; response_data : json }.

(** axios on Node sends its requests through [follow-redirects] and
    sets no [maxRedirects] of its own: that library's default holds. *)
Definition maxRedirects : nat := 21.

(** The reply axios settles on.  It follows a redirect to its target,
    [maxRedirects] times at most.  With the default
    [validateStatus] the promise resolves for a status from 200 to 299
    and rejects for every other one; the rejection is an error, not a
    response. *)
Fixpoint settle (redirects_left : nat) (r : Reply) {struct r} : M AxiosResponse :=
  match r with
  | Replied st d =>
      if (200 <=? st) && (st <? 300)
      then mret {| response_status := st; response_data := d |}
      else throw (AxiosStatus st)
  | NoReply => throw AxiosNetwork
  | Redirect _ target =>
      match redirects_left with
      | O => throw AxiosRedirects
      | S n => settle n target
      end
  end.

(** [axios.post(url, data, { headers })] *)
Definition axios_post (provider : AxiosRequest → Reply) (req : AxiosRequest) : M AxiosResponse :=
  settle maxRedirects (provider req).

Definition datacenter (src : Source) : string :=
  match src with index_js => "us21" | part_000 => "us14" end.

Definition mailchimpUrl (src : Source) (cfg : Config) : string :=
  "https://" +:+ datacenter src +:+ ".api.mailchimp.com/3.0/lists/"
  +:+ MAILCHIMP_AUDIENCE_ID cfg.

Definition mailchimpData (email : json) : json :=
  JObject [("members",
            JArray [JObject [("email_address", email);
                             ("status", JString "subscribed")]]);
           ("update_existing", JBool true)].

Definition post_subscribe (src : Source) (cfg : Config)
    (provider : AxiosRequest → Reply) (req_body : json) : M Response :=
  let email := member "email" req_body in
  if falsy email then
    mret {| status := 400; body := Message "Email is required" |}
  else
    try_catch
      (response ←
         axios_post provider
           {| url := mailchimpUrl src cfg;
              authorization := "apikey " +:+ MAILCHIMP_API_KEY cfg;
              data := mailchimpData (default JNull email) |};
       if (200 <=? response_status response) && (response_status response <? 300)
       then mret {| status := 200; body := Message "Subscription successful" |}
       else mret {| status := response_status response;
                    body := MessageData "Error subscribing to Mailchimp"
                                        (response_data response) |})
      (λ error, mret {| status := 500;
                        body := MessageError "Error subscribing to Mailchimp"
                                             error |}).

(** Running a handler: the response that was sent, or the exception that
    escaped the handler (no response is sent), and the stores it left. *)
Definition run (h : M Response) (s : Server) : (exn + Response) * Server := h s.

(** ** Registration and the plain listings

    POST /api/register and GET /api/register ([src/index.js] 53-71,
    [src/unnamed/part_000] 67-85), GET /api/blogs ([src/index.js]
    129-136, [src/unnamed/part_000] 180-183). *)

(** A path of the request body as Mongoose casts it to the type the
    schema declares: not there (or [null] for a string), there with a
    value of that type, or there with a value that cannot be cast.
    [new User(req.body)] keeps the paths of the schema, [_id] among
    them, and drops the rest.  A body whose [check] is [null] is not
    covered. *)
Inductive Cast (A : Type) :=
| Missing
| Value (a : A)
| Uncastable (raw : string).
Arguments Missing {A}.
Arguments Value {A} a.
Arguments Uncastable {A} raw.

Record RegBody := {
  reg_id : Cast ObjectId;
  reg_name : Cast string;
  reg_email : Cast string;
  reg_location : Cast string;
  reg_church : Cast string;
  reg_phone : Cast string;
  reg_check : Cast bool
}.

(** Validation at [save()]: a path that could not be cast fails it. *)
Definition cast_field {A} (c : Cast A) : M (option A) :=
  match c with
  | Missing => mret None
  | Value a => mret (Some a)
  | Uncastable raw => throw (CastError raw)
  end.

Definition save_new_user (u : User.t) : M unit := λ s,
  match insert User._id u (users s) with
  | inl e => (inl e, s)
  | inr c => (inr tt, set_users (λ _, c) s)
  end.

(** POST /api/register.  The document takes [_id] and [check] from the
    body when the body has them, and else the drawn id and the default
    [false]. *)
Definition post_register (env : Env) (req_body : RegBody) : M Response :=
  try_catch
    (i ← cast_field (reg_id req_body);
     name ← cast_field (reg_name req_body);
     email ← cast_field (reg_email req_body);
     location ← cast_field (reg_location req_body);
     church ← cast_field (reg_church req_body);
     phone ← cast_field (reg_phone req_body);
     check ← cast_field (reg_check req_body);
     let newUser := User.mk (default (newId env) i) name email location
                            church phone (default false check) in
     save_new_user newUser;;
     mret {| status := 201; body := Message "User registered successfully" |})
    (λ error, mret {| status := 400;
                      body := MessageError "Error registering user" error |}).

(** The answer of a route that sends the array of documents itself. *)
Inductive ArrayResponse (T : Type) :=
| Listed (status : Z) (items : list T)
| Failed (r : Response).
Arguments Listed {T} status items.
Arguments Failed {T} r.

(** GET /api/register: [User.find()], all registrations in natural
    order. *)
Definition get_register : M (ArrayResponse User.t) :=
  try_catch
    (λ s, (inr (Listed 200 (users s)), s))
    (λ error, mret (Failed {| status := 500;
                             body := MessageError "Error fetching users" error |})).

(** GET /api/blogs: [Blog.find()]. *)
Definition get_blogs (src : Source) : M (ArrayResponse Blog.t) :=
  match src with
  | index_js =>
      try_catch
        (λ s, (inr (Listed 200 (blogs s)), s))
        (λ error, mret (Failed {| status := 500;
                                 body := MessageError "Error fetching blogs" error |}))
  | part_000 => λ s, (inr (Listed 200 (blogs s)), s)
  end.

(** ** Forms whose fields need not be text

    multer gives a string for a part named [title].  For parts named
    [title[a]] or [title[]] it builds an object or an array, which
    Mongoose cannot cast to the String the schema declares: the path is
    marked invalid and [save()] is refused.  (An object with a non-empty
    string under [_id] is cast to that string; it counts as [Text].)
    The handlers above are the handlers on the forms whose fields are
    text; the ones below take every form. *)

Inductive FormValue :=
| Text (s : string)
| Structured (raw : string).

Record RawBlogForm := {
  raw_title : option FormValue;
  raw_content : option FormValue;
  raw_image : option Upload
}.

Record RawEventForm := {
  raw_event_title : option FormValue;
  raw_event_date : DateField;
  raw_event_time : option FormValue;
  raw_event_image : option Upload
}.

(** A field given to [new Model(...)], as validation finds it. *)
Definition cast_form (v : option FormValue) : M (option string) :=
  match v with
  | None => mret None
  | Some (Text x) => mret (Some x)
  | Some (Structured raw) => throw (CastError raw)
  end.

(** [doc.path = value || doc.path], as validation finds it: an object or
    an array is truthy. *)
Definition or_else_raw (a : option FormValue) (b : option string) : M (option string) :=
  match a with
  | None => mret b
  | Some (Text x) => mret (if truthy x then Some x else b)
  | Some (Structured raw) => throw (CastError raw)
  end.

(** POST /api/blogs on every form. *)
Definition post_blogs_raw (src : Source) (env : Env) (form : RawBlogForm) : M Response :=
  file ← upload_single (now env) (raw_image form);
  let image := match file with Some path => path | None => "" end in
  guarded src
    (title ← cast_form (raw_title form);
     content ← cast_form (raw_content form);
     let newBlog := Blog.mk (newId env) title content image
                            (saveTime env) (saveTime env) in
     save_new_blog newBlog;;
     mret {| status := 201; body := OneBlog newBlog |})
    (λ error, mret {| status := 400;
                      body := MessageError "Error creating blog post" error |}).

(** PUT /api/blogs/:id on every form.  The old image is removed before
    [save()] validates the document. *)
Definition put_blogs_raw (src : Source) (env : Env) (id : string)
    (form : RawBlogForm) : M Response :=
  file ← upload_single (now env) (raw_image form);
  guarded src
    (blog ← findById Blog._id blogs id;
     match blog with
     | None => mret {| status := 404; body := Error "Blog not found" |}
     | Some b =>
         image ← match file with
                 | Some path => remove_image (Blog.image b);; mret path
                 | None => mret (Blog.image b)
                 end;
         title ← or_else_raw (raw_title form) (Blog.title b);
         content ← or_else_raw (raw_content form) (Blog.content b);
         let edited := Blog.mk (Blog._id b) title content
                         image (Blog.createdAt b) (Blog.updatedAt b) in
         saved ← save_blog (saveTime env) b edited;
         mret {| status := 200; body := OneBlog saved |}
     end)
    (λ error, mret {| status := 500;
                      body := MessageError "Error updating blog" error |}).

(** POST /api/events on every form. *)
Definition post_events_raw (env : Env) (form : RawEventForm) : M Response :=
  file ← upload_single (now env) (raw_event_image form);
  let image := match file with Some path => path | None => "" end in
  try_catch
    (title ← cast_form (raw_event_title form);
     date ← match raw_event_date form with
            | NoDate => mret None
            | DateAt ms => mret (Some ms)
            | BadDate raw => throw (CastError raw)
            end;
     time ← cast_form (raw_event_time form);
     let newEvent := Event.mk (newId env) title date time image in
     save_new_event newEvent;;
     mret {| status := 201; body := OneEvent newEvent |})
    (λ error, mret {| status := 400;
                      body := MessageError "Error creating event" error |}).

(** The forms whose fields are text. *)
Definition text_form (form : BlogForm) : RawBlogForm :=
  {| raw_title := Text <$> form_title form;
     raw_content := Text <$> form_content form;
     raw_image := form_image form |}.

Definition text_event_form (form : EventForm) : RawEventForm :=
  {| raw_event_title := Text <$> event_title form;
     raw_event_date := event_date form;
     raw_event_time := Text <$> event_time form;
     raw_event_image := event_image form |}.

(** ** The routes, in the order of their registration

    Express (version 4) tries the middleware and the routes of an
    application in the order in which the file registers them and gives
    the request to the first that takes it; no callback of these files
    calls [next()].  [cors()] and [express.json()] come first in both
    files and pass every request on, the body parsed; a request is taken
    here after them (OPTIONS, which [cors()] answers itself, is not
    among the methods).  A path is the list of its segments, decoded. *)

Inductive Method := GET | HEAD | POST | PUT | PATCH | DELETE.

(** What the request carries, as the callback that takes it reads it. *)
Inductive Payload :=
| NoPayload
| JsonBody (j : json)
| Registration (b : RegBody)
| BlogFormData (f : RawBlogForm)
| EventFormData (f : RawEventForm).

Record Request := {
  req_method : Method;
  req_path : list string;
  req_search : option string;      (* ?searchQuery= *)
  req_paging : PageQuery;          (* ?page= and ?limit= *)
  req_payload : Payload
}.

(** What is sent back: the answer of a callback of the API, what
    [express.static] found, the page of the front end that the catch-all
    sends with [res.sendFile] (the error of [sendFile] when the page is
    missing), or the 404 of Express when nothing takes the request. *)
Inductive Answer :=
| Handled (r : Response)
| UsersListed (a : ArrayResponse User.t)
| BlogsListed (a : ArrayResponse Blog.t)
| StaticFile (path : string)
| IndexPage
| NoRoute.

(** What [express.static(root)] finds for the rest of a path, at the
    time of the request: the place it answers from (a file, the index of
    a directory, a redirection to a directory), or nothing, and then it
    passes the request on.  The front end's build is not among the files
    of the model, so the lookup is given with the request, as the
    provider's reply is. *)
Definition Lookup := string → list string → option string.

(** The callbacks of the two files. *)
Inductive Callback :=
| register_post | register_get | register_patch
| subscribe_post | subscribe_post_again
| blogs_post | blogs_get | blogs_main | blogs_search | blogs_by_id
| blogs_delete | blogs_put
| events_post | events_get | events_delete
| catch_all.

Inductive Segment := Exact (s : string) | Param.

Inductive Layer :=
| Static (mount : list string) (root : string)
| Route (m : Method) (pattern : option (list Segment)) (cb : Callback).

Definition api (rest : list Segment) : option (list Segment) :=
  Some (Exact "api" :: rest).

(** [src/index.js]: the uploads first, then the API, the front end and
    the catch-all last (lines 20, 53-292, 300-308).  The two mounts of
    the uploads name one directory when the server is started in its
    own directory. *)
Definition stack_index_js : list Layer :=
  [ Static ["uploads"] "uploads";
    Route POST (api [Exact "register"]) register_post;
    Route GET (api [Exact "register"]) register_get;
    Route PATCH (api [Exact "register"; Param]) register_patch;
    Route POST (api [Exact "blogs"]) blogs_post;
    Route GET (api [Exact "blogs"]) blogs_get;
    Route GET (api [Exact "blogs"; Param]) blogs_by_id;
    Route DELETE (api [Exact "blogs"; Param]) blogs_delete;
    Route PUT (api [Exact "blogs"; Param]) blogs_put;
    Route POST (api [Exact "subscribe"]) subscribe_post;
    Route POST (api [Exact "events"]) events_post;
    Route GET (api [Exact "events"]) events_get;
    Route DELETE (api [Exact "events"; Param]) events_delete;
    Static [] "frontend/dist";
    Static ["uploads"] "uploads";
    Route GET None catch_all ].

(** [src/unnamed/part_000]: the front end, the uploads and the catch-all
    first (lines 25-32), then the API (lines 67-298). *)
Definition stack_part_000 : list Layer :=
  [ Static [] "frontend/dist";
    Static ["uploads"] "uploads";
    Route GET None catch_all;
    Route POST (api [Exact "register"]) register_post;
    Route GET (api [Exact "register"]) register_get;
    Route PATCH (api [Exact "register"; Param]) register_patch;
    Route POST (api [Exact "subscribe"]) subscribe_post;
    Route POST (api [Exact "blogs"]) blogs_post;
    Route GET (api [Exact "blogs"]) blogs_get;
    Route GET (api [Exact "blogs"; Exact "main"]) blogs_main;
    Route GET (api [Exact "blogs"; Exact "search"]) blogs_search;
    Route GET (api [Exact "blogs"; Param]) blogs_by_id;
    Route DELETE (api [Exact "blogs"; Param]) blogs_delete;
    Route PUT (api [Exact "blogs"; Param]) blogs_put;
    Route POST (api [Exact "subscribe"]) subscribe_post_again ].

Definition stack (src : Source) : list Layer :=
  match src with
  | index_js => stack_index_js
  | part_000 => stack_part_000
  end.

(** A route registered with [app.get] also takes HEAD requests. *)
Definition method_matches (route req : Method) : bool :=
  match route, req with
  | GET, GET | GET, HEAD | HEAD, HEAD | POST, POST | PUT, PUT
  | PATCH, PATCH | DELETE, DELETE => true
  | _, _ => false
  end.

Fixpoint fold_case (s : string) : string :=
  match s with
  | EmptyString => EmptyString
  | String c s' => String (lower c) (fold_case s')
  end.

(** Routing is not sensitive to letter case. *)
Definition same_segment (a b : string) : bool :=
  String.eqb (fold_case a) (fold_case b).

(** The values of the parameters when the path matches the pattern; a
    parameter takes one segment that is not empty, and routing is not
    strict about one slash at the end of the path. *)
Fixpoint match_segments (pattern : list Segment) (path : list string)
    : option (list string) :=
  match pattern, path with
  | [], [] => Some []
  | [], [x] => if String.eqb x "" then Some [] else None   (* a slash at the end *)
  | Exact s :: pattern', x :: path' =>
      if same_segment s x then match_segments pattern' path' else None
  | Param :: pattern', x :: path' =>
      if String.eqb x "" then None
      else option_map (cons x) (match_segments pattern' path')
  | _, _ => None
  end.

Definition match_pattern (pattern : option (list Segment)) (path : list string)
    : option (list string) :=
  match pattern with
  | None => Some []                       (* '*' *)
  | Some segments => match_segments segments path
  end.

(** What is left of the path under the mount point of a middleware. *)
Fixpoint under (mount path : list string) : option (list string) :=
  match mount, path with
  | [], _ => Some path
  | m :: mount', x :: path' =>
      if same_segment m x then under mount' path' else None
  | _ :: _, [] => None
  end.

Definition is_read (m : Method) : bool :=
  match m with GET | HEAD => true | _ => false end.

Definition handled (m : M Response) : M Answer := r ← m; mret (Handled r).

Definition only_id (params : list string) : string :=
  match params with id :: _ => id | [] => "" end.

Definition empty_blog_form : RawBlogForm :=
  {| raw_title := None; raw_content := None; raw_image := None |}.

Definition empty_event_form : RawEventForm :=
  {| raw_event_title := None; raw_event_date := NoDate;
     raw_event_time := None; raw_event_image := None |}.

Definition empty_registration : RegBody :=
  {| reg_id := Missing; reg_name := Missing; reg_email := Missing;
     reg_location := Missing; reg_church := Missing; reg_phone := Missing;
     reg_check := Missing |}.

(** The callback on the request.  [None]: the payload is not of a kind
    the model reads for that callback (or the search has no
    [searchQuery], or its pattern is outside the model). *)
Definition call (src : Source) (env : Env) (cfg : Config)
    (provider : AxiosRequest → Reply) (cb : Callback) (params : list string)
    (req : Request) : option (M Answer) :=
  match cb with
  | register_post =>
      match req_payload req with
      | Registration b => Some (handled (post_register env b))
      | NoPayload => Some (handled (post_register env empty_registration))
      | _ => None
      end
  | register_get => Some (a ← get_register; mret (UsersListed a))
  | register_patch =>
      Some (handled (patch_register (only_id params)
                       match req_payload req with JsonBody j => j | _ => JNull end))
  | subscribe_post =>
      match req_payload req with
      | JsonBody j => Some (handled (post_subscribe src cfg provider j))
      | NoPayload => Some (handled (post_subscribe src cfg provider (JObject [])))
      | _ => None
      end
  | subscribe_post_again =>
      match req_payload req with
      | JsonBody j => Some (handled (post_subscribe index_js cfg provider j))
      | NoPayload =>
          Some (handled (post_subscribe index_js cfg provider (JObject [])))
      | _ => None
      end
  | blogs_post =>
      match req_payload req with
      | BlogFormData f => Some (handled (post_blogs_raw src env f))
      | NoPayload => Some (handled (post_blogs_raw src env empty_blog_form))
      | _ => None
      end
  | blogs_get => Some (a ← get_blogs src; mret (BlogsListed a))
  | blogs_main => Some (handled (get_blogs_main (req_paging req)))
  | blogs_search =>
      match req_search req with
      | Some q =>
          option_map handled
            (get_blogs_search {| searchQuery := q; paging := req_paging req |})
      | None => None
      end
  | blogs_by_id => Some (handled (get_blog src (only_id params)))
  | blogs_delete => Some (handled (delete_blogs src (only_id params)))
  | blogs_put =>
      match req_payload req with
      | BlogFormData f => Some (handled (put_blogs_raw src env (only_id params) f))
      | NoPayload =>
          Some (handled (put_blogs_raw src env (only_id params) empty_blog_form))
      | _ => None
      end
  | events_post =>
      match req_payload req with
      | EventFormData f => Some (handled (post_events_raw env f))
      | NoPayload => Some (handled (post_events_raw env empty_event_form))
      | _ => None
      end
  | events_get => Some (handled (get_events env))
  | events_delete => Some (handled (delete_events (only_id params)))
  | catch_all => Some (mret IndexPage)
  end.

(** The layers a request passes and the one that takes it.
    [express.static] looks at GET and HEAD requests only. *)
Fixpoint dispatch (src : Source) (env : Env) (cfg : Config)
    (provider : AxiosRequest → Reply) (lookup : Lookup) (layers : list Layer)
    (req : Request) (s : Server) : option ((exn + Answer) * Server) :=
  match layers with
  | [] => Some (inr NoRoute, s)
  | Static mount root :: layers' =>
      match (if is_read (req_method req) then under mount (req_path req) else None)
            ≫= lookup root with
      | Some p => Some (inr (StaticFile p), s)
      | None => dispatch src env cfg provider lookup layers' req s
      end
  | Route m pattern cb :: layers' =>
      match (if method_matches m (req_method req)
             then match_pattern pattern (req_path req) else None) with
      | Some params =>
          match call src env cfg provider cb params req with
          | Some h => Some (h s)
          | None => None
          end
      | None => dispatch src env cfg provider lookup layers' req s
      end
  end.

(** The server of an entry point on one request.  [None]: the request is
    outside the model (see [call]). *)
Definition serve (src : Source) (env : Env) (cfg : Config)
    (provider : AxiosRequest → Reply) (lookup : Lookup) (req : Request)
    (s : Server) : option ((exn + Answer) * Server) :=
  dispatch src env cfg provider lookup (stack src) req s.

(** ** Notions used to state the properties *)


(** The id of the route names no stored registration. *)
Definition names_no_user (id : string) (s : Server) : Prop :=
  ∀ u, u ∈ users s → castObjectId id ≠ Some (User._id u).

(** The stores with one path less, or one more, on disk. *)
Definition without (p : string) (s : Server) : Server :=
  mkServer (users s) (blogs s) (events s) (files s ∖ {[p]}).

Definition with_file (p : string) (s : Server) : Server :=
  mkServer (users s) (blogs s) (events s) ({[p]} ∪ files s).

(** The stores as [remove_image] leaves them. *)
Definition after_remove (image : string) (s : Server) : Server :=
  if truthy image && bool_decide (image ∈ files s) then without image s else s.

(** The stores as [upload_single] leaves them. *)
Definition after_upload (t : Z) (part : option Upload) (s : Server) : Server :=
  match part with
  | Some file => with_file ("uploads/" +:+ filename t file) s
  | None => s
  end.

(** The image, the document and the disk that PUT /api/blogs/:id works
    out for the stored post [b]. *)
Definition put_image (t : Z) (form : BlogForm) (b : Blog.t) : string :=
  match form_image form with
  | Some file => "uploads/" +:+ filename t file
  | None => Blog.image b
  end.

Definition put_edited (t : Z) (form : BlogForm) (b : Blog.t) : Blog.t :=
  Blog.mk (Blog._id b)
    (or_else (form_title form) (Blog.title b))
    (or_else (form_content form) (Blog.content b))
    (put_image t form b) (Blog.createdAt b) (Blog.updatedAt b).

Definition put_saved (t stamp : Z) (form : BlogForm) (b : Blog.t) : Blog.t :=
  if decide (put_edited t form b = b) then b
  else Blog.mk (Blog._id b)
         (or_else (form_title form) (Blog.title b))
         (or_else (form_content form) (Blog.content b))
         (put_image t form b) (Blog.createdAt b) stamp.

Definition put_disk (t : Z) (form : BlogForm) (b : Blog.t) (s : Server) : Server :=
  match form_image form with
  | Some file =>
      after_remove (Blog.image b) (with_file ("uploads/" +:+ filename t file) s)
  | None => s
  end.

(** The documents that POST /api/blogs and POST /api/events build. *)
Definition new_image (t : Z) (part : option Upload) : string :=
  match part with
  | Some file => "uploads/" +:+ filename t file
  | None => ""
  end.

Definition new_blog (env : Env) (form : BlogForm) : Blog.t :=
  Blog.mk (newId env) (form_title form) (form_content form)
          (new_image (now env) (form_image form)) (saveTime env) (saveTime env).

Definition new_event (env : Env) (form : EventForm) (d : option Z) : Event.t :=
  Event.mk (newId env) (event_title form) d (event_time form)
           (new_image (now env) (event_image form)).

(** Ascending order on events that have a date. *)
Definition not_later (a b : Event.t) : Prop :=
  ∃ x y, Event.date a = Some x ∧ Event.date b = Some y ∧ x ≤ y.

(** The request that POST /api/subscribe sends to the provider. *)
Definition subscribe_request (src : Source) (cfg : Config) (email : json)
    : AxiosRequest :=
  {| url := mailchimpUrl src cfg;
     authorization := "apikey " +:+ MAILCHIMP_API_KEY cfg;
     data := mailchimpData email |}.

(** The answer and the stores a callback leaves, as the server's. *)
Definition answered {A} (f : A → Answer) (r : (exn + A) * Server)
    : (exn + Answer) * Server :=
  (match r.1 with inl e => inl e | inr a => inr (f a) end, r.2).

(** Mongoose can cast the value of the field to a String. *)
Definition castable (v : option FormValue) : bool :=
  match v with Some (Structured _) => false | _ => true end.

(** The text of a field that can be cast. *)
Definition text_of (v : option FormValue) : option string :=
  match v with Some (Text x) => Some x | _ => None end.

Definition untext (form : RawBlogForm) : BlogForm :=
  {| form_title := text_of (raw_title form);
     form_content := text_of (raw_content form);
     form_image := raw_image form |}.

Definition untext_event (form : RawEventForm) : EventForm :=
  {| event_title := text_of (raw_event_title form);
     event_date := raw_event_date form;
     event_time := text_of (raw_event_time form);
     event_image := raw_event_image form |}.

(** ** Sample stores and requests *)

(** An id of the route and stores in which it names a registration. *)
Definition sample_id : string := "64b7f0c2a1d3e4f5a6b7c8d9".
Definition sample_oid : ObjectId :=
  Eval vm_compute in default 0%N (castObjectId sample_id).

Definition sample_user : User.t :=
  User.mk sample_oid (Some "Ada") (Some "ada@example.org") (Some "Lagos")
          (Some "Grace Chapel") (Some "0800") false.

Definition other_user : User.t :=
  User.mk 7%N (Some "Ben") None None None None false.

Definition sample_server : Server :=
  mkServer [other_user; sample_user] [] [] ∅.

(** A well-formed id that names nothing in [sample_server]. *)
Definition absent_id : string := "000000000000000000000001".

(** One post with its image on disk. *)
Definition sample_blog_id : string := "5f1d7f3e9b2c4a0012345678".
Definition sample_blog_oid : ObjectId :=
  Eval vm_compute in default 0%N (castObjectId sample_blog_id).

Definition sample_blog : Blog.t :=
  Blog.mk sample_blog_oid (Some "Harvest") (Some "Join us") "uploads/1700000000000.png"
          1700000000000 1700000000000.

Definition sample_blog_server : Server :=
  mkServer [] [sample_blog] [] {[ "uploads/1700000000000.png" ]}.

(** A request five hundred seconds later; the id [new Blog] draws is
    99, in text [sample_new_id]. *)
Definition sample_env : Env :=
  {| now := 1700000500000; saveTime := 1700000500015; newId := 99%N |}.
Definition sample_new_id : string := "000000000000000000000063".

Definition sample_form : BlogForm :=
  {| form_title := Some "Harvest Sunday"; form_content := Some "";
     form_image := Some {| extname_originalname := ".jpg" |} |}.

Definition sample_upload : Upload := {| extname_originalname := ".png" |}.

Definition sample_new_form : BlogForm :=
  {| form_title := Some "Retreat"; form_content := Some "Pictures";
     form_image := Some sample_upload |}.

Definition text_only_form : BlogForm :=
  {| form_title := Some "Notice"; form_content := Some "No picture";
     form_image := None |}.

(** A post whose image is not on disk. *)
Definition orphan_blog : Blog.t :=
  Blog.mk sample_blog_oid (Some "Harvest") None "uploads/gone.png" 5 5.

Definition orphan_server : Server := mkServer [] [orphan_blog] [] ∅.

Definition ev (i : N) (d : option Z) : Event.t :=
  Event.mk i (Some "Service") d (Some "9am") "".

Definition sample_config : Config :=
  {| MAILCHIMP_AUDIENCE_ID := "a1b2c3"; MAILCHIMP_API_KEY := "k-us21" |}.

Definition member_exists_payload : json :=
  JObject [("title", JString "Invalid Resource"); ("status", JNumber 400)].

Definition titled (i : N) (t : string) : Blog.t :=
  Blog.mk i (Some t) (Some "...") "" 0 0.

(** Five posts whose title contains "foo" in some letter case, two whose
    title does not. *)
Definition foo_server : Server :=
  mkServer []
    [titled 1 "Foo one"; titled 2 "Bar"; titled 3 "two FOO"; titled 4 "a foo 3";
     titled 5 "fOo4"; titled 6 "baz"; titled 7 "5 food"]
    [] ∅.

Definition foo_query : SearchQuery :=
  {| searchQuery := "foo"; paging := {| page := Some 2; limit := Some 2 |} |}.

(** GET /api/blogs/search?searchQuery=foo&limit=2&page=2 *)
Definition search_request : Request :=
  {| req_method := GET; req_path := ["api"; "blogs"; "search"];
     req_search := Some "foo";
     req_paging := {| page := Some 2; limit := Some 2 |};
     req_payload := NoPayload |}.

(** GET /api/blogs/main *)
Definition main_request : Request :=
  {| req_method := GET; req_path := ["api"; "blogs"; "main"];
     req_search := None; req_paging := {| page := None; limit := None |};
     req_payload := NoPayload |}.

(** A front end without a file for the path of the request. *)
Definition no_static_file : Lookup := λ _ _, None.

Definition silent_provider : AxiosRequest → Reply := λ _, NoReply.

(** A form with a new image and a part named [title[a]]. *)
Definition nested_title_form : RawBlogForm :=
  {| raw_title := Some (Structured "{ a: 'x' }"); raw_content := None;
     raw_image := Some sample_upload |}.

(** ** Notions used by the further properties *)

Definition of_option {A} (o : option A) : Cast A :=
  match o with Some a => Value a | None => Missing end.

Definition uncastable {A} (c : Cast A) : bool :=
  match c with Uncastable _ => true | _ => false end.

(** Some path of the body cannot be cast. *)
Definition unacceptable (b : RegBody) : bool :=
  uncastable (reg_id b) || uncastable (reg_name b) || uncastable (reg_email b)
  || uncastable (reg_location b) || uncastable (reg_church b)
  || uncastable (reg_phone b) || uncastable (reg_check b).

(** The id the new registration would be stored under. *)
Definition reg_oid (env : Env) (b : RegBody) : ObjectId :=
  match reg_id b with Value i => i | _ => newId env end.

(** The image fields of the stored posts and events. *)
Definition images (s : Server) : list string :=
  ((Blog.image <$> blogs s) ++ (Event.image <$> events s))%list.

(** The state of the media the lifecycle aims at: no two records refer
    to the same file, and every file referred to is on disk.  An empty
    image refers to nothing. *)
Definition media (imgs : list string) (disk : gset string) : Prop :=
  NoDup (filter (λ p, p ≠ "") imgs) ∧ ∀ p, p ∈ imgs → p ≠ "" → p ∈ disk.

Definition media_ok (s : Server) : Prop := media (images s) (files s).

(** The name multer would give to the upload is not taken on disk. *)
Definition fresh_upload (t : Z) (part : option Upload) (s : Server) : Prop :=
  match part with
  | Some file => "uploads/" +:+ filename t file ∉ files s
  | None => True
  end.

(** A computation leaves the posts, the events and the disk alone. *)
Definition leaves_media {A} (m : M A) : Prop :=
  ∀ s, blogs (m s).2 = blogs s ∧ events (m s).2 = events s
       ∧ files (m s).2 = files s.


(** The reply axios settles on, apart from the stores: the response of
    the resolved promise or the error of the rejected one. *)
Fixpoint final (redirects_left : nat) (r : Reply) {struct r} : exn + AxiosResponse :=
  match r with
  | Replied st d =>
      if (200 <=? st) && (st <? 300)
      then inr {| response_status := st; response_data := d |}
      else inl (AxiosStatus st)
  | NoReply => inl AxiosNetwork
  | Redirect _ target =>
      match redirects_left with
      | O => inl AxiosRedirects
      | S n => final n target
      end
  end.

(** * Properties *)

(** ** Collections *)

Section CollectionFacts.
Context {T : Type} (oid : T → ObjectId).

Lemma find_by_id_Some i c d :
  find_by_id oid i c = Some d → oid d = i ∧ d ∈ c.
Proof.
  induction c as [|x c IH]; simpl; [done|].
  destruct (decide (oid x = i)) as [Hx|Hx].
  - intros [= <-]. split; [done | apply list_elem_of_here].
  - intros H. destruct (IH H) as [? ?]. split; [done | by apply list_elem_of_further].
Qed.

Lemma find_by_id_None i c :
  find_by_id oid i c = None ↔ ∀ d, d ∈ c → oid d ≠ i.
Proof.
  induction c as [|x c IH]; simpl.
  - split; [intros _ d Hd; by apply elem_of_nil in Hd | done].
  - destruct (decide (oid x = i)) as [Hx|Hx].
    + split; [done|]. intros H. destruct (H x); [apply list_elem_of_here | done].
    + rewrite IH. split.
      * intros H d Hd. apply elem_of_cons in Hd as [->|Hd]; [done | by apply H].
      * intros H d Hd. apply H. by apply list_elem_of_further.
Qed.

Lemma update_by_id_absent i f c :
  find_by_id oid i c = None → update_by_id oid i f c = c.
Proof.
  induction c as [|x c IH]; simpl; [done|].
  destruct (decide (oid x = i)); [done|]. intros H. by rewrite IH.
Qed.

Lemma find_by_id_update i f c :
  (∀ d, oid (f d) = oid d) →
  find_by_id oid i (update_by_id oid i f c) = f <$> find_by_id oid i c.
Proof.
  intros Hf. induction c as [|x c IH]; simpl; [done|].
  destruct (decide (oid x = i)) as [Hx|Hx]; simpl.
  - rewrite Hf. by rewrite decide_True.
  - by rewrite decide_False.
Qed.

Lemma find_by_id_replace i d' c d :
  find_by_id oid i c = Some d → oid d' = i →
  find_by_id oid i (update_by_id oid i (λ _, d') c) = Some d'.
Proof.
  intros Hd Hi. induction c as [|x c IH]; simpl in *; [done|].
  destruct (decide (oid x = i)) as [Hx|Hx]; simpl.
  - by rewrite decide_True.
  - rewrite decide_False; [by apply IH | done].
Qed.

Lemma find_by_id_update_ne i j f c :
  (∀ d, oid (f d) = oid d) → i ≠ j →
  find_by_id oid j (update_by_id oid i f c) = find_by_id oid j c.
Proof.
  intros Hf Hij. induction c as [|x c IH]; simpl; [done|].
  destruct (decide (oid x = i)) as [Hx|Hx]; simpl.
  - rewrite Hf. rewrite !decide_False; [done | congruence | congruence].
  - by rewrite IH.
Qed.

Lemma update_by_id_twice i f c :
  (∀ d, oid (f d) = oid d) → (∀ d, f (f d) = f d) →
  update_by_id oid i f (update_by_id oid i f c) = update_by_id oid i f c.
Proof.
  intros Hf Hff. induction c as [|x c IH]; simpl; [done|].
  destruct (decide (oid x = i)) as [Hx|Hx]; simpl.
  - rewrite Hf, decide_True by done. by rewrite Hff.
  - rewrite decide_False by done. by rewrite IH.
Qed.

Lemma find_by_id_delete i c :
  unique_ids oid c → find_by_id oid i (delete_by_id oid i c) = None.
Proof.
  unfold unique_ids. induction c as [|x c IH]; simpl; [done|].
  intros Hnd. apply NoDup_cons in Hnd as [Hx Hnd].
  destruct (decide (oid x = i)) as [Hi|Hi]; simpl.
  - apply find_by_id_None. intros d Hd Heq. apply Hx.
    rewrite Hi, <- Heq. by apply list_elem_of_fmap_2.
  - rewrite decide_False by done. by apply IH.
Qed.

Lemma find_by_id_delete_ne i j c :
  i ≠ j → find_by_id oid j (delete_by_id oid i c) = find_by_id oid j c.
Proof.
  intros Hij. induction c as [|x c IH]; simpl; [done|].
  destruct (decide (oid x = i)) as [Hi|Hi]; simpl.
  - rewrite decide_False; [done | congruence].
  - by rewrite IH.
Qed.

Lemma delete_by_id_absent i c :
  find_by_id oid i c = None → delete_by_id oid i c = c.
Proof.
  induction c as [|x c IH]; simpl; [done|].
  destruct (decide (oid x = i)); [done|]. intros H. by rewrite IH.
Qed.

Lemma find_by_id_snoc i c d :
  find_by_id oid i (c ++ [d])%list =
  match find_by_id oid i c with
  | Some x => Some x
  | None => if decide (oid d = i) then Some d else None
  end.
Proof.
  induction c as [|x c IH]; simpl; [done|].
  by destruct (decide (oid x = i)).
Qed.


End CollectionFacts.

(** ** Registration check-in *)

Lemma set_check_id u : User._id (set_check u) = User._id u.
Proof. done. Qed.

Lemma set_check_twice u : set_check (set_check u) = set_check u.
Proof. done. Qed.

(** The three ways the handler can go. *)
Lemma patch_register_found s id i u req_body :
  castObjectId id = Some i →
  find_by_id User._id i (users s) = Some u →
  run (patch_register id req_body) s =
    (inr {| status := 200;
            body := MessageUser "User checked in successfully" (set_check u) |},
     set_users (update_by_id User._id i set_check) s).
Proof.
  intros Hid Hu.
  unfold run, patch_register, try_catch, mbind, M_bind, findByIdAndUpdate_check.
  rewrite Hid. simpl.
  rewrite (find_by_id_update User._id i set_check (users s) set_check_id), Hu.
  done.
Qed.

Lemma patch_register_absent s id i req_body :
  castObjectId id = Some i →
  find_by_id User._id i (users s) = None →
  run (patch_register id req_body) s =
    (inr {| status := 404; body := Message "User not found" |}, s).
Proof.
  intros Hid Hu.
  unfold run, patch_register, try_catch, mbind, M_bind, findByIdAndUpdate_check.
  rewrite Hid. simpl.
  rewrite (find_by_id_update User._id i set_check (users s) set_check_id), Hu.
  simpl. unfold mret, M_ret, set_users. f_equal.
  rewrite update_by_id_absent by done. by destruct s.
Qed.

Lemma patch_register_malformed s id req_body :
  castObjectId id = None →
  run (patch_register id req_body) s =
    (inr {| status := 400;
            body := MessageError "Error updating user" (CastError id) |}, s).
Proof.
  intros Hid.
  unfold run, patch_register, try_catch, mbind, M_bind, findByIdAndUpdate_check.
  by rewrite Hid.
Qed.

(** C5.  For an id that names a stored registration, the check-in answers
    200 with the record whose [check] flag is true and stores that record;
    a second check-in of the same id, whatever its body, gives the same
    answer and leaves the stores as the first one left them. *)
Theorem checkin_sets_flag_and_is_idempotent
    (s : Server) (id : string) (i : ObjectId) (u : User.t) (body1 body2 : json) :
  castObjectId id = Some i →
  find_by_id User._id i (users s) = Some u →
  let first := run (patch_register id body1) s in
  let second := run (patch_register id body2) first.2 in
  first.1 = inr {| status := 200;
                   body := MessageUser "User checked in successfully"
                                       (set_check u) |}
  ∧ User.check (set_check u) = true
  ∧ find_by_id User._id i (users first.2) = Some (set_check u)
  ∧ second.1 = first.1
  ∧ find_by_id User._id i (users second.2) = Some (set_check u)
  ∧ second.2 = first.2.
Proof.
  intros Hid Hu first second.
  assert (Hfirst : first = (inr {| status := 200;
            body := MessageUser "User checked in successfully" (set_check u) |},
          set_users (update_by_id User._id i set_check) s))
    by (by apply patch_register_found).
  assert (Hstored : find_by_id User._id i (users first.2) = Some (set_check u)).
  { rewrite Hfirst. simpl.
    rewrite (find_by_id_update User._id i set_check (users s) set_check_id).
    by rewrite Hu. }
  assert (Hsecond : second = (inr {| status := 200;
            body := MessageUser "User checked in successfully"
                      (set_check (set_check u)) |},
          set_users (update_by_id User._id i set_check) first.2))
    by (by apply patch_register_found).
  assert (Hsame : second.2 = first.2).
  { rewrite Hsecond, Hfirst. simpl. unfold set_users. simpl. f_equal.
    apply update_by_id_twice; [apply set_check_id | apply set_check_twice]. }
  repeat split.
  - by rewrite Hfirst.
  - done.
  - rewrite Hsecond, Hfirst. simpl. by rewrite set_check_twice.
  - by rewrite Hsame.
  - done.
Qed.

Lemma checkin_sets_flag_and_is_idempotent_witness :
  castObjectId sample_id = Some sample_oid
  ∧ find_by_id User._id sample_oid (users sample_server) = Some sample_user
  ∧ (run (patch_register sample_id JNull) sample_server).1 =
      inr {| status := 200;
             body := MessageUser "User checked in successfully"
                                 (set_check sample_user) |}.
Proof.
  split; [vm_compute; reflexivity|]. split; [vm_compute; reflexivity|].
  apply (checkin_sets_flag_and_is_idempotent sample_server sample_id sample_oid
           sample_user JNull (JBool true)); vm_compute; reflexivity.
Defined.

(** C6, as stated, fails: an id that is not the text of an ObjectId names
    no registration either, and the answer to it is the 400 of the
    [catch] block, not 404. *)
Lemma checkin_unknown_id_counterexample :
  names_no_user "abc" sample_server
  ∧ (run (patch_register "abc" JNull) sample_server).1 =
      inr {| status := 400;
             body := MessageError "Error updating user" (CastError "abc") |}
  ∧ ¬ (∀ s id req_body, names_no_user id s →
         ∃ b, (run (patch_register id req_body) s).1 =
                inr {| status := 404; body := b |}).
Proof.
  split; [intros u _; vm_compute; discriminate|].
  split; [vm_compute; reflexivity|].
  intros H. destruct (H sample_server "abc" JNull) as [b Hb].
  - intros u _. vm_compute. discriminate.
  - vm_compute in Hb. discriminate.
Qed.

(** C6, amended.  For an id that names no stored registration the
    check-in leaves the stores as they were, and it answers 404 when the
    id is the text of an ObjectId and 400 when it is not. *)
Theorem checkin_unknown_id_changes_nothing
    (s : Server) (id : string) (req_body : json) :
  names_no_user id s →
  (run (patch_register id req_body) s).2 = s
  ∧ (is_Some (castObjectId id) →
     (run (patch_register id req_body) s).1 =
       inr {| status := 404; body := Message "User not found" |})
  ∧ (castObjectId id = None →
     (run (patch_register id req_body) s).1 =
       inr {| status := 400;
              body := MessageError "Error updating user" (CastError id) |}).
Proof.
  intros Hno. destruct (castObjectId id) as [i|] eqn:Hid.
  - assert (Habs : find_by_id User._id i (users s) = None).
    { apply find_by_id_None. intros u Hu Heq. apply (Hno u Hu). by rewrite Heq. }
    rewrite (patch_register_absent s id i req_body Hid Habs).
    split; [done|]. split; [done|]. intros [=].
  - rewrite (patch_register_malformed s id req_body Hid).
    split; [done|]. split; [|done]. by intros [? [=]].
Qed.

Lemma checkin_unknown_id_changes_nothing_witness :
  names_no_user absent_id sample_server
  ∧ (run (patch_register absent_id JNull) sample_server).2 = sample_server
  ∧ (run (patch_register absent_id JNull) sample_server).1 =
      inr {| status := 404; body := Message "User not found" |}.
Proof.
  assert (Hno : names_no_user absent_id sample_server).
  { intros u Hu. unfold sample_server in Hu. simpl in Hu.
    apply elem_of_cons in Hu as [->|Hu]; [vm_compute; discriminate|].
    apply list_elem_of_singleton in Hu as ->. vm_compute. discriminate. }
  split; [exact Hno|].
  destruct (checkin_unknown_id_changes_nothing sample_server absent_id JNull Hno)
    as (Hs & H404 & _).
  split; [exact Hs|]. apply H404. vm_compute. eauto.
Defined.

(** C10.  For an id that names a stored registration the check-in does
    not read the request body, keeps every field of the record but
    [check], and touches no other registration, no post, no event and no
    file. *)
Theorem checkin_frame
    (s : Server) (id : string) (i : ObjectId) (u : User.t) (req_body : json) :
  castObjectId id = Some i →
  find_by_id User._id i (users s) = Some u →
  let s' := (run (patch_register id req_body) s).2 in
  (∃ u', find_by_id User._id i (users s') = Some u'
         ∧ User.check u' = true
         ∧ User._id u' = User._id u
         ∧ User.name u' = User.name u
         ∧ User.email u' = User.email u
         ∧ User.location u' = User.location u
         ∧ User.church u' = User.church u
         ∧ User.phone u' = User.phone u)
  ∧ (∀ j, j ≠ i → find_by_id User._id j (users s') = find_by_id User._id j (users s))
  ∧ List.length (users s') = List.length (users s)
  ∧ blogs s' = blogs s ∧ events s' = events s ∧ files s' = files s
  ∧ (∀ other_body, run (patch_register id other_body) s
                   = run (patch_register id req_body) s).
Proof.
  intros Hid Hu s'. subst s'.
  rewrite (patch_register_found s id i u req_body Hid Hu). simpl.
  split.
  { exists (set_check u).
    rewrite (find_by_id_update User._id i set_check (users s) set_check_id), Hu.
    done. }
  split.
  { intros j Hj. by apply find_by_id_update_ne; [apply set_check_id|]. }
  split.
  { clear Hu. induction (users s) as [|x c IH]; simpl; [done|].
    destruct (decide (User._id x = i)); simpl; [done | by rewrite IH]. }
  repeat split.
  intros other_body. by rewrite (patch_register_found s id i u other_body Hid Hu).
Qed.

Lemma checkin_frame_witness :
  castObjectId sample_id = Some sample_oid
  ∧ find_by_id User._id sample_oid (users sample_server) = Some sample_user
  ∧ blogs (run (patch_register sample_id (JObject [("name", JString "Eve")]))
               sample_server).2 = blogs sample_server.
Proof.
  split; [vm_compute; reflexivity|]. split; [vm_compute; reflexivity|].
  apply (checkin_frame sample_server sample_id sample_oid sample_user
           (JObject [("name", JString "Eve")])); vm_compute; reflexivity.
Defined.

(** ** Image files *)

(** The guarded removal never throws, and removes the file exactly when
    the image is set and on disk. *)
Lemma remove_image_run image s :
  remove_image image s =
    (inr tt, if truthy image && bool_decide (image ∈ files s)
             then without image s else s).
Proof.
  unfold remove_image. destruct (truthy image); simpl; [|done].
  unfold mbind, M_bind, existsSync, unlinkSync.
  destruct (decide (image ∈ files s)) as [Hin|Hin].
  - rewrite bool_decide_eq_true_2 by done. by rewrite decide_True.
  - by rewrite bool_decide_eq_false_2.
Qed.

Lemma truthy_true x : truthy x = true ↔ x ≠ "".
Proof.
  unfold truthy. destruct (String.eqb_spec x ""); simpl; split; congruence.
Qed.

(** The files that are left once the image of a record has been taken
    care of. *)
Lemma files_after_remove image s :
  files (if truthy image && bool_decide (image ∈ files s)
         then without image s else s)
  = if decide (image = "") then files s else files s ∖ {[image]}.
Proof.
  destruct (decide (image = "")) as [->|Hne]; [done|].
  apply truthy_true in Hne as ->. simpl.
  destruct (decide (image ∈ files s)) as [Hin|Hin].
  - by rewrite bool_decide_eq_true_2.
  - rewrite bool_decide_eq_false_2 by done.
    apply set_eq. intros x. rewrite elem_of_difference, elem_of_singleton.
    split; [|by intros [? _]]. intros Hx. split; [done|]. by intros ->.
Qed.

Lemma upload_single_run t part s :
  upload_single t part s =
    match part with
    | Some file =>
        (inr (Some ("uploads/" +:+ filename t file)),
         with_file ("uploads/" +:+ filename t file) s)
    | None => (inr None, s)
    end.
Proof. by destruct part. Qed.

Lemma after_remove_blogs image s : blogs (after_remove image s) = blogs s.
Proof. unfold after_remove. by destruct (_ && _). Qed.

Lemma after_remove_files image s :
  files (after_remove image s)
  = if decide (image = "") then files s else files s ∖ {[image]}.
Proof. apply files_after_remove. Qed.

Lemma after_remove_missing image s :
  image ∉ files s → after_remove image s = s.
Proof.
  intros Hin. unfold after_remove.
  rewrite bool_decide_eq_false_2 by done. by rewrite andb_false_r.
Qed.

(** ** Deleting a post *)

Lemma delete_blogs_found src s id i b :
  castObjectId id = Some i →
  find_by_id Blog._id i (blogs s) = Some b →
  run (delete_blogs src id) s =
    (inr {| status := 204; body := Empty |},
     set_blogs (delete_by_id Blog._id i) (after_remove (Blog.image b) s)).
Proof.
  intros Hid Hb. unfold run, delete_blogs, guarded.
  destruct src; unfold try_catch, mbind, M_bind, findById;
    rewrite Hid; simpl; rewrite Hb; simpl;
    rewrite remove_image_run; unfold findByIdAndDelete_blog;
    by rewrite Hid.
Qed.

Lemma get_blog_absent src s id i :
  castObjectId id = Some i →
  find_by_id Blog._id i (blogs s) = None →
  run (get_blog src id) s =
    (inr {| status := 404; body := Error "Blog not found" |}, s).
Proof.
  intros Hid Hb. unfold run, get_blog, guarded.
  destruct src; unfold try_catch, mbind, M_bind, findById;
    rewrite Hid; simpl; by rewrite Hb.
Qed.

(** ** Updating a post *)

Lemma put_blogs_found src env s id i b form :
  castObjectId id = Some i →
  find_by_id Blog._id i (blogs s) = Some b →
  run (put_blogs src env id form) s =
    (inr {| status := 200; body := OneBlog (put_saved (now env) (saveTime env) form b) |},
     if decide (put_edited (now env) form b = b)
     then put_disk (now env) form b s
     else set_blogs (update_by_id Blog._id (Blog._id b)
                       (λ _, put_saved (now env) (saveTime env) form b))
                    (put_disk (now env) form b s)).
Proof.
  intros Hid Hb.
  unfold run, put_blogs, put_saved, put_edited, put_image, put_disk.
  unfold mbind at 1. unfold M_bind at 1. rewrite upload_single_run.
  destruct (form_image form) as [file|]; unfold guarded;
    destruct src; unfold try_catch, mbind, M_bind, findById;
    rewrite Hid; simpl; rewrite Hb; simpl;
    rewrite ?remove_image_run; fold (after_remove (Blog.image b));
    unfold save_blog, mret, M_ret; simpl;
    by destruct (decide _).
Qed.


Lemma or_else_omitted a old : a = None ∨ a = Some "" → or_else a old = old.
Proof. by intros [-> | ->]. Qed.

Lemma put_disk_blogs t form b s : blogs (put_disk t form b s) = blogs s.
Proof.
  unfold put_disk. destruct (form_image form); [|done].
  by rewrite after_remove_blogs.
Qed.

Lemma put_saved_fields t stamp form b :
  Blog._id (put_saved t stamp form b) = Blog._id b
  ∧ Blog.title (put_saved t stamp form b) = or_else (form_title form) (Blog.title b)
  ∧ Blog.content (put_saved t stamp form b) = or_else (form_content form) (Blog.content b)
  ∧ Blog.image (put_saved t stamp form b) = put_image t form b
  ∧ Blog.createdAt (put_saved t stamp form b) = Blog.createdAt b.
Proof.
  unfold put_saved. destruct (decide _) as [Heq|Hne]; [|done].
  rewrite <- Heq at 1 3 5 7 9. done.
Qed.



(** ** Creating a post or an event *)

(** A post is created exactly when the drawn id is free; the upload has
    happened either way. *)
Lemma post_blogs_run src env form s :
  run (post_blogs src env form) s =
    match find_by_id Blog._id (newId env) (blogs s) with
    | None =>
        (inr {| status := 201; body := OneBlog (new_blog env form) |},
         set_blogs (λ c, (c ++ [new_blog env form])%list)
                   (after_upload (now env) (form_image form) s))
    | Some _ =>
        (match src with
         | index_js =>
             inr {| status := 400;
                    body := MessageError "Error creating blog post"
                                         (DuplicateKey (newId env)) |}
         | part_000 => inl (DuplicateKey (newId env))
         end,
         after_upload (now env) (form_image form) s)
    end.
Proof.
  unfold run, post_blogs, new_blog, new_image, after_upload.
  unfold mbind at 1. unfold M_bind at 1. rewrite upload_single_run.
  destruct (form_image form) as [file|]; unfold guarded;
    destruct src; unfold try_catch, mbind, M_bind, save_new_blog, insert; simpl;
    by destruct (find_by_id Blog._id (newId env) (blogs s)).
Qed.

Lemma post_blogs_created src env form s r :
  (run (post_blogs src env form) s).1 = inr r → status r = 201 →
  run (post_blogs src env form) s =
    (inr {| status := 201; body := OneBlog (new_blog env form) |},
     set_blogs (λ c, (c ++ [new_blog env form])%list)
               (after_upload (now env) (form_image form) s))
  ∧ find_by_id Blog._id (newId env) (blogs s) = None.
Proof.
  rewrite post_blogs_run.
  destruct (find_by_id Blog._id (newId env) (blogs s)); [|done].
  destruct src; simpl; [|done]. intros [= <-]. simpl. done.
Qed.

Lemma post_events_created env form s r :
  (run (post_events env form) s).1 = inr r → status r = 201 →
  ∃ d,
    run (post_events env form) s =
      (inr {| status := 201; body := OneEvent (new_event env form d) |},
       set_events (λ c, (c ++ [new_event env form d])%list)
                  (after_upload (now env) (event_image form) s))
    ∧ find_by_id Event._id (newId env) (events s) = None.
Proof.
  unfold run, post_events, new_event, new_image, after_upload.
  unfold mbind at 1. unfold M_bind at 1. rewrite upload_single_run.
  destruct (event_image form) as [file|];
    unfold try_catch, mbind, M_bind, save_new_event, insert, throw; simpl;
    destruct (event_date form) as [|ms|raw]; simpl;
    destruct (find_by_id Event._id (newId env) (events s)); simpl;
    intros Hr Hst;
    try (injection Hr as <-; simpl in Hst; discriminate);
    eexists; split; reflexivity.
Qed.

Lemma delete_events_found s id i e :
  castObjectId id = Some i →
  find_by_id Event._id i (events s) = Some e →
  run (delete_events id) s =
    (inr {| status := 204; body := Empty |},
     set_events (delete_by_id Event._id i) (after_remove (Event.image e) s)).
Proof.
  intros Hid He. unfold run, delete_events.
  unfold try_catch, mbind, M_bind, findById.
  rewrite Hid; simpl; rewrite He; simpl.
  rewrite remove_image_run. unfold findByIdAndDelete_event.
  by rewrite Hid.
Qed.

(** C3.  A post created (201) with an attached image is stored with the
    path of the file that multer wrote, and that file is on disk.  In any
    later state of the stores in which the post is still stored under its
    id, deleting it answers 204, after which the id is not found (by the
    model and by GET /api/blogs/:id, which answers 404) and the file the
    post referenced is not on disk. *)
Theorem delete_post_removes_record_and_file
    (src : Source) (env : Env) (form : BlogForm) (file : Upload) (s : Server)
    (r : Response) :
  form_image form = Some file →
  (run (post_blogs src env form) s).1 = inr r → status r = 201 →
  let created := run (post_blogs src env form) s in
  let path := "uploads/" +:+ filename (now env) file in
  let b := new_blog env form in
  r = {| status := 201; body := OneBlog b |}
  ∧ Blog.image b = path
  ∧ find_by_id Blog._id (Blog._id b) (blogs created.2) = Some b
  ∧ path ∈ files created.2
  ∧ ∀ (src' : Source) (s' : Server) (id : string),
      unique_ids Blog._id (blogs s') →
      castObjectId id = Some (Blog._id b) →
      find_by_id Blog._id (Blog._id b) (blogs s') = Some b →
      let deleted := run (delete_blogs src' id) s' in
      deleted.1 = inr {| status := 204; body := Empty |}
      ∧ find_by_id Blog._id (Blog._id b) (blogs deleted.2) = None
      ∧ (run (get_blog src' id) deleted.2).1 =
          inr {| status := 404; body := Error "Blog not found" |}
      ∧ (existsSync path deleted.2).1 = inr false.
Proof.
  intros Hfile Hr Hst created path b.
  destruct (post_blogs_created src env form s r Hr Hst) as [Hrun Hfresh].
  subst created. rewrite Hrun in Hr |- *. simpl in *.
  assert (Himg : Blog.image b = path).
  { subst b path. unfold new_blog, new_image. simpl. by rewrite Hfile. }
  split; [by injection Hr|]. split; [done|]. split.
  { unfold after_upload. rewrite Hfile. simpl.
    rewrite find_by_id_snoc, Hfresh. simpl. by rewrite decide_True. }
  split.
  { unfold after_upload. rewrite Hfile. simpl.
    apply elem_of_union_l, elem_of_singleton. done. }
  intros src' s' id Huniq Hid Hb.
  rewrite (delete_blogs_found src' s' id _ b Hid Hb), Himg. cbn [fst snd].
  assert (Hgone : find_by_id Blog._id (newId env)
            (blogs (set_blogs (delete_by_id Blog._id (newId env))
                      (after_remove path s'))) = None).
  { simpl. rewrite after_remove_blogs. by apply find_by_id_delete. }
  split; [done|]. split; [done|]. split.
  { by rewrite (get_blog_absent src' _ id (newId env) Hid). }
  unfold existsSync. simpl. f_equal.
  apply bool_decide_eq_false_2.
  rewrite after_remove_files.
  assert (Hpath : path ≠ "") by (subst path; discriminate).
  rewrite decide_False by done.
  rewrite elem_of_difference, elem_of_singleton. by intros [_ ?].
Qed.

Lemma delete_post_removes_record_and_file_witness :
  let created := run (post_blogs index_js sample_env sample_new_form)
                     sample_blog_server in
  created.1 = inr {| status := 201;
                     body := OneBlog (new_blog sample_env sample_new_form) |}
  ∧ (run (delete_blogs index_js sample_new_id) created.2).1 =
      inr {| status := 204; body := Empty |}
  ∧ find_by_id Blog._id 99%N
      (blogs (run (delete_blogs index_js sample_new_id) created.2).2) = None.
Proof.
  intros created.
  assert (Hr : created.1 =
            inr {| status := 201;
                   body := OneBlog (new_blog sample_env sample_new_form) |})
    by (vm_compute; reflexivity).
  destruct (delete_post_removes_record_and_file index_js sample_env
              sample_new_form sample_upload sample_blog_server _
              eq_refl Hr eq_refl) as (_ & _ & Hstored & _ & Hdel).
  split; [exact Hr|].
  destruct (Hdel index_js created.2 sample_new_id) as (H204 & Hgone & _).
  - apply (bool_decide_unpack _). vm_compute. exact I.
  - vm_compute. reflexivity.
  - exact Hstored.
  - split; [exact H204 | exact Hgone].
Defined.

(** C7.  Removing an image that is not on disk does nothing and does not
    throw, in each of the three handlers that remove one: for a stored
    post or event whose image is not on disk the delete answers 204 and
    leaves the disk as it was, and an update with a new file answers 200
    and leaves on disk what the upload left. *)
Theorem removing_missing_image_is_noop :
  (∀ image s, image ∉ files s → remove_image image s = (inr tt, s))
  ∧ (∀ src s id i b,
       castObjectId id = Some i → find_by_id Blog._id i (blogs s) = Some b →
       Blog.image b ∉ files s →
       (run (delete_blogs src id) s).1 = inr {| status := 204; body := Empty |}
       ∧ files (run (delete_blogs src id) s).2 = files s)
  ∧ (∀ s id i e,
       castObjectId id = Some i → find_by_id Event._id i (events s) = Some e →
       Event.image e ∉ files s →
       (run (delete_events id) s).1 = inr {| status := 204; body := Empty |}
       ∧ files (run (delete_events id) s).2 = files s)
  ∧ (∀ src env s id i b form file,
       castObjectId id = Some i → find_by_id Blog._id i (blogs s) = Some b →
       form_image form = Some file →
       let path := "uploads/" +:+ filename (now env) file in
       Blog.image b ∉ {[path]} ∪ files s →
       (∃ saved, (run (put_blogs src env id form) s).1 =
                   inr {| status := 200; body := OneBlog saved |})
       ∧ files (run (put_blogs src env id form) s).2 = {[path]} ∪ files s).
Proof.
  split.
  { intros image s Hmiss. rewrite remove_image_run.
    fold (after_remove image s). by rewrite after_remove_missing. }
  split.
  { intros src s id i b Hid Hb Hmiss.
    rewrite (delete_blogs_found src s id i b Hid Hb).
    by rewrite after_remove_missing. }
  split.
  { intros s id i e Hid He Hmiss.
    rewrite (delete_events_found s id i e Hid He).
    by rewrite after_remove_missing. }
  intros src env s id i b form file Hid Hb Hfile path Hmiss.
  rewrite (put_blogs_found src env s id i b form Hid Hb).
  split; [by eexists|].
  assert (Hdisk : put_disk (now env) form b s = with_file path s).
  { unfold put_disk. rewrite Hfile. by apply after_remove_missing. }
  rewrite Hdisk. by destruct (decide _).
Qed.

Lemma removing_missing_image_is_noop_witness :
  (run (delete_blogs part_000 sample_blog_id) orphan_server).1 =
    inr {| status := 204; body := Empty |}
  ∧ files (run (delete_blogs part_000 sample_blog_id) orphan_server).2 = ∅.
Proof.
  destruct removing_missing_image_is_noop as (_ & Hdel & _).
  apply (Hdel part_000 orphan_server sample_blog_id sample_blog_oid orphan_blog).
  - vm_compute. reflexivity.
  - vm_compute. reflexivity.
  - apply not_elem_of_empty.
Defined.

(** An unguarded [unlinkSync] of the same path would have thrown. *)
Lemma unlinkSync_missing p s : p ∉ files s → unlinkSync p s = (inl (ENOENT p), s).
Proof. intros Hp. unfold unlinkSync. by rewrite decide_False. Qed.

(** C9.  A post or an event created (201) without an attached file is
    stored with the empty string as its image, and the creation leaves
    the disk as it was.  Deleting a stored post or event whose image is
    the empty string answers 204, removes that record from its
    collection and changes nothing else: the disk, the registrations and
    the other collection are as before. *)
Theorem no_file_means_empty_image_and_no_unlink :
  (∀ src env form s r,
     form_image form = None →
     (run (post_blogs src env form) s).1 = inr r → status r = 201 →
     ∃ b, r = {| status := 201; body := OneBlog b |}
          ∧ Blog.image b = ""
          ∧ find_by_id Blog._id (Blog._id b)
              (blogs (run (post_blogs src env form) s).2) = Some b
          ∧ files (run (post_blogs src env form) s).2 = files s)
  ∧ (∀ env form s r,
       event_image form = None →
       (run (post_events env form) s).1 = inr r → status r = 201 →
       ∃ e, r = {| status := 201; body := OneEvent e |}
            ∧ Event.image e = ""
            ∧ find_by_id Event._id (Event._id e)
                (events (run (post_events env form) s).2) = Some e
            ∧ files (run (post_events env form) s).2 = files s)
  ∧ (∀ src s id i b,
       castObjectId id = Some i → find_by_id Blog._id i (blogs s) = Some b →
       Blog.image b = "" →
       run (delete_blogs src id) s =
         (inr {| status := 204; body := Empty |},
          set_blogs (delete_by_id Blog._id i) s))
  ∧ (∀ s id i e,
       castObjectId id = Some i → find_by_id Event._id i (events s) = Some e →
       Event.image e = "" →
       run (delete_events id) s =
         (inr {| status := 204; body := Empty |},
          set_events (delete_by_id Event._id i) s)).
Proof.
  split.
  { intros src env form s r Hfile Hr Hst.
    destruct (post_blogs_created src env form s r Hr Hst) as [Hrun Hfresh].
    rewrite Hrun in Hr |- *. exists (new_blog env form).
    split; [by injection Hr|]. unfold new_blog at 1 2, after_upload.
    rewrite Hfile. simpl.
    split; [done|]. split; [|done].
    rewrite find_by_id_snoc, Hfresh. simpl. by rewrite decide_True. }
  split.
  { intros env form s r Hfile Hr Hst.
    destruct (post_events_created env form s r Hr Hst) as (d & Hrun & Hfresh).
    rewrite Hrun in Hr |- *. exists (new_event env form d).
    split; [by injection Hr|]. unfold new_event at 1 2, after_upload.
    rewrite Hfile. simpl.
    split; [done|]. split; [|done].
    rewrite find_by_id_snoc, Hfresh. simpl. by rewrite decide_True. }
  split.
  { intros src s id i b Hid Hb Himg.
    rewrite (delete_blogs_found src s id i b Hid Hb), Himg. done. }
  intros s id i e Hid He Himg.
  rewrite (delete_events_found s id i e Hid He), Himg. done.
Qed.

Lemma no_file_means_empty_image_and_no_unlink_witness :
  ∃ b, (run (post_blogs part_000 sample_env text_only_form) sample_blog_server).1
         = inr {| status := 201; body := OneBlog b |}
       ∧ Blog.image b = ""
       ∧ run (delete_blogs part_000 sample_new_id)
             (run (post_blogs part_000 sample_env text_only_form)
                  sample_blog_server).2
         = (inr {| status := 204; body := Empty |}, sample_blog_server).
Proof.
  destruct no_file_means_empty_image_and_no_unlink as (Hnew & _ & Hdel & _).
  destruct (Hnew part_000 sample_env text_only_form sample_blog_server
              {| status := 201; body := OneBlog (new_blog sample_env text_only_form) |})
    as (b & Hb & Himg & Hstored & _); try (vm_compute; reflexivity).
  injection Hb as <-.
  exists (new_blog sample_env text_only_form).
  split; [vm_compute; reflexivity|]. split; [exact Himg|].
  rewrite (Hdel part_000 _ sample_new_id 99%N (new_blog sample_env text_only_form));
    [vm_compute; reflexivity | vm_compute; reflexivity | exact Hstored | exact Himg].
Defined.

(** ** Listing the upcoming events *)

#[global] Instance date_le_total : Total date_le.
Proof.
  intros a b. unfold date_le.
  destruct (Event.date a), (Event.date b); try tauto. lia.
Qed.

#[global] Instance date_le_trans : Transitive date_le.
Proof.
  intros a b c. unfold date_le.
  destruct (Event.date a), (Event.date b), (Event.date c); try tauto. lia.
Qed.

Lemma date_gte_spec t e :
  date_gte t e = true ↔ ∃ d, Event.date e = Some d ∧ t ≤ d.
Proof.
  unfold date_gte. destruct (Event.date e) as [d|].
  - rewrite Z.leb_le. split; [by exists d | by intros (? & [= <-] & ?)].
  - split; [done | by intros (? & [=] & _)].
Qed.

Lemma StronglySorted_dated (l : list Event.t) :
  (∀ e, e ∈ l → is_Some (Event.date e)) →
  StronglySorted date_le l → StronglySorted not_later l.
Proof.
  intros Hdated Hsorted. induction Hsorted as [|a l Hl IH Hall]; constructor.
  - apply IH. intros e He. apply Hdated. by apply list_elem_of_further.
  - apply Forall_forall. intros b Hb.
    rewrite Forall_forall in Hall.
    destruct (Hdated a) as [x Hx]; [apply list_elem_of_here|].
    destruct (Hdated b) as [y Hy]; [by apply list_elem_of_further|].
    exists x, y. split; [done|]. split; [done|].
    specialize (Hall b Hb). unfold date_le in Hall. by rewrite Hx, Hy in Hall.
Qed.

(** C4.  GET /api/events answers 200 with exactly the stored events whose
    date is the current time or later, each as many times as it is
    stored, in ascending order of date; the stores are not changed. *)
Theorem events_listing_is_upcoming_and_sorted (env : Env) (s : Server) :
  ∃ l,
    run (get_events env) s = (inr {| status := 200; body := EventList l |}, s)
    ∧ l ≡ₚ List.filter (date_gte (now env)) (events s)
    ∧ (∀ e, e ∈ l ↔ e ∈ events s ∧ ∃ d, Event.date e = Some d ∧ now env ≤ d)
    ∧ StronglySorted not_later l.
Proof.
  exists (merge_sort date_le (List.filter (date_gte (now env)) (events s))).
  assert (Hmem : ∀ e,
    e ∈ merge_sort date_le (List.filter (date_gte (now env)) (events s))
    ↔ e ∈ events s ∧ ∃ d, Event.date e = Some d ∧ now env ≤ d).
  { intros e. rewrite merge_sort_Permutation.
    rewrite !list_elem_of_In, filter_In, date_gte_spec. done. }
  split; [done|]. split; [apply merge_sort_Permutation|]. split; [done|].
  apply StronglySorted_dated.
  - intros e He. apply Hmem in He as (_ & d & Hd & _). by exists d.
  - apply StronglySorted_merge_sort; apply _.
Qed.

(** A store with two past events, two coming ones out of order, one at
    the very instant of the request and one without a date. *)
Example events_listing_fixture :
  run (get_events {| now := 100; saveTime := 100; newId := 0%N |})
      (mkServer [] [] [ev 1 (Some 300); ev 2 (Some 50); ev 3 (Some 100);
                       ev 4 None; ev 5 (Some 200); ev 6 (Some 99)] ∅)
  = (inr {| status := 200;
            body := EventList [ev 3 (Some 100); ev 5 (Some 200); ev 1 (Some 300)] |},
     mkServer [] [] [ev 1 (Some 300); ev 2 (Some 50); ev 3 (Some 100);
                     ev 4 None; ev 5 (Some 200); ev 6 (Some 99)] ∅).
Proof. vm_compute. reflexivity. Qed.

(** ** Subscription *)

Lemma post_subscribe_no_email src cfg provider req_body s :
  falsy (member "email" req_body) = true →
  run (post_subscribe src cfg provider req_body) s =
    (inr {| status := 400; body := Message "Email is required" |}, s).
Proof. intros He. unfold run, post_subscribe. by rewrite He. Qed.

(** A reply in the 2xx range is answered 200. *)
Lemma post_subscribe_2xx src cfg provider req_body email st d s :
  member "email" req_body = Some email → falsy (Some email) = false →
  provider (subscribe_request src cfg email) = Replied st d →
  200 ≤ st < 300 →
  run (post_subscribe src cfg provider req_body) s =
    (inr {| status := 200; body := Message "Subscription successful" |}, s).
Proof.
  intros Hm He Hp [Hlo Hhi]. unfold run, post_subscribe. rewrite Hm, He.
  unfold try_catch, mbind, M_bind, axios_post. simpl.
  fold (subscribe_request src cfg email). rewrite Hp. cbn [settle].
  apply Z.leb_le in Hlo. apply Z.ltb_lt in Hhi.
  rewrite Hlo, Hhi. simpl. by rewrite Hlo, Hhi.
Qed.

(** Any other reply makes axios reject; the [else] branch of the handler
    is never reached and the [catch] block answers 500 with the error,
    in which the payload of the provider does not appear. *)
Lemma post_subscribe_not_2xx src cfg provider req_body email st d s :
  member "email" req_body = Some email → falsy (Some email) = false →
  provider (subscribe_request src cfg email) = Replied st d →
  ¬ (200 ≤ st < 300) →
  run (post_subscribe src cfg provider req_body) s =
    (inr {| status := 500;
            body := MessageError "Error subscribing to Mailchimp"
                                 (AxiosStatus st) |}, s).
Proof.
  intros Hm He Hp Hst. unfold run, post_subscribe. rewrite Hm, He.
  unfold try_catch, mbind, M_bind, axios_post. simpl.
  fold (subscribe_request src cfg email). rewrite Hp. cbn [settle].
  destruct ((200 <=? st) && (st <? 300)) eqn:Hrange; [|done].
  apply andb_true_iff in Hrange as [Hlo%Z.leb_le Hhi%Z.ltb_lt]. lia.
Qed.

(** C2, where the code departs from it.  A subscribe call with a
    non-empty email to which the provider replies with a status outside
    200-299 is answered 500 by either entry point, whatever that status
    was, and the answer is the same whatever payload came with it:
    neither the status nor the payload of the provider is what the caller
    gets.  The 2xx half of the claim holds ([post_subscribe_2xx]). *)
Theorem subscribe_provider_error_is_answered_500
    (src : Source) (cfg : Config) (provider : AxiosRequest → Reply)
    (req_body email : json) (st : Z) (payload : json) (s : Server) :
  member "email" req_body = Some email → falsy (Some email) = false →
  provider (subscribe_request src cfg email) = Replied st payload →
  ¬ (200 ≤ st < 300) →
  run (post_subscribe src cfg provider req_body) s
  = (inr {| status := 500;
            body := MessageError "Error subscribing to Mailchimp"
                                 (AxiosStatus st) |}, s)
  ∧ ∀ provider' payload',
      provider' (subscribe_request src cfg email) = Replied st payload' →
      run (post_subscribe src cfg provider' req_body) s
      = run (post_subscribe src cfg provider req_body) s.
Proof.
  intros Hm He Hp Hst.
  rewrite (post_subscribe_not_2xx src cfg provider req_body email st payload s)
    by done.
  split; [done|]. intros provider' payload' Hp'.
  by rewrite (post_subscribe_not_2xx src cfg provider' req_body email st payload' s).
Qed.

Lemma subscribe_provider_error_is_answered_500_witness :
  run (post_subscribe index_js sample_config
         (λ _, Replied 400 member_exists_payload)
         (JObject [("email", JString "ada@example.org")])) sample_server
  = (inr {| status := 500;
            body := MessageError "Error subscribing to Mailchimp"
                                 (AxiosStatus 400) |}, sample_server).
Proof.
  apply (subscribe_provider_error_is_answered_500 index_js sample_config
           (λ _, Replied 400 member_exists_payload)
           (JObject [("email", JString "ada@example.org")])
           (JString "ada@example.org") 400 member_exists_payload sample_server);
    [reflexivity | reflexivity | reflexivity | lia].
Defined.

(** ** The order of the routes *)

(** On the forms whose fields are text the handlers for every form are
    the handlers above. *)
Lemma post_blogs_raw_text src env form :
  post_blogs_raw src env (text_form form) = post_blogs src env form.
Proof. by destruct form as [[t|] [c|] img]. Qed.

Lemma put_blogs_raw_text src env id form :
  put_blogs_raw src env id (text_form form) = put_blogs src env id form.
Proof. by destruct form as [[t|] [c|] img]. Qed.

Lemma post_events_raw_text env form :
  post_events_raw env (text_event_form form) = post_events env form.
Proof. by destruct form as [[t|] d [c|] img]. Qed.


Lemma handled_run (m : M Response) s : handled m s = answered Handled (run m s).
Proof.
  unfold handled, answered, run, mbind, M_bind.
  by destruct (m s) as [[e|r] s'].
Qed.

Lemma serve_part_000_read env cfg provider lookup req s :
  is_read (req_method req) = true →
  serve part_000 env cfg provider lookup req s =
    Some (inr match lookup "frontend/dist" (req_path req) with
              | Some p => StaticFile p
              | None =>
                  match under ["uploads"] (req_path req) ≫= lookup "uploads" with
                  | Some p => StaticFile p
                  | None => IndexPage
                  end
              end, s).
Proof.
  intros Hread. unfold serve, stack, stack_part_000. cbn [dispatch].
  rewrite Hread. cbv iota.
  change (under [] (req_path req)) with (Some (req_path req)).
  cbn [mbind option_bind].
  destruct (lookup "frontend/dist" (req_path req)); [done|].
  destruct (under ["uploads"] (req_path req) ≫= lookup "uploads"); [done|].
  by destruct (req_method req).
Qed.

Lemma handled_listing {A} (f : A → Answer) (m : M A) s :
  (a ← m; mret (f a)) s = answered f (m s).
Proof.
  unfold answered, mbind, M_bind.
  by destruct (m s) as [[e|a] s'].
Qed.

Lemma serve_post_blogs src env cfg provider lookup q pg f s :
  serve src env cfg provider lookup
    (Build_Request POST ["api"; "blogs"] q pg (BlogFormData f)) s
  = Some (answered Handled (run (post_blogs_raw src env f) s)).
Proof. rewrite <- handled_run. by destruct src. Qed.

Lemma serve_index_js_get_blogs env cfg provider lookup q pg payload s :
  serve index_js env cfg provider lookup
    (Build_Request GET ["api"; "blogs"] q pg payload) s
  = Some (answered BlogsListed (get_blogs index_js s)).
Proof. by rewrite <- handled_listing. Qed.

Lemma serve_index_js_get_blog env cfg provider lookup q pg payload id s :
  id ≠ "" →
  serve index_js env cfg provider lookup
    (Build_Request GET ["api"; "blogs"; id] q pg payload) s
  = Some (answered Handled (run (get_blog index_js id) s)).
Proof. intros Hid. rewrite <- handled_run. by destruct id. Qed.

(** C8.  [src/unnamed/part_000] registers [app.get('*')] (line 30)
    before the search route (line 198).  So a GET request to
    /api/blogs/search, whatever its query, is answered by
    [express.static] when the front end has a file for that path and with
    the page of the front end otherwise; the search callback does not
    run.  At searchQuery=foo, limit=2, page=2 over the fixture of five
    matching posts the answer is the page of the front end, whereas the
    callback, on the same request and stores, computes the third and the
    fourth matching post. *)
Theorem search_request_is_taken_by_the_catch_all :
  (∀ env cfg provider lookup q pg payload s,
     serve part_000 env cfg provider lookup
       (Build_Request GET ["api"; "blogs"; "search"] q pg payload) s
     = Some (inr match lookup "frontend/dist" ["api"; "blogs"; "search"] with
                 | Some p => StaticFile p
                 | None => IndexPage
                 end, s))
  ∧ serve part_000 sample_env sample_config silent_provider no_static_file
      search_request foo_server
    = Some (inr IndexPage, foo_server)
  ∧ option_map (λ h, h foo_server)
      (call part_000 sample_env sample_config silent_provider blogs_search []
         search_request)
    = Some (inr (Handled {| status := 200;
                            body := BlogList [titled 4 "a foo 3";
                                              titled 5 "fOo4"] |}),
            foo_server).
Proof.
  split; [|split].
  - intros. rewrite serve_part_000_read by done. cbn [req_path].
    destruct (lookup "frontend/dist" _); [done|]. done.
  - by rewrite serve_part_000_read.
  - vm_compute. reflexivity.
Qed.

(** ** The handlers keep ids unique

    [wf] holds of the empty stores and every handler keeps it, so it
    holds of every state the server can reach. *)

Section UniqueIds.
Context {T : Type} (oid : T → ObjectId).

Lemma update_by_id_ids i f c :
  (∀ d, oid d = i → oid (f d) = i) →
  oid <$> update_by_id oid i f c = oid <$> c.
Proof.
  intros Hf. induction c as [|x c IH]; [done|]. cbn [update_by_id].
  destruct (decide (oid x = i)) as [Hx|Hx]; rewrite !fmap_cons.
  - by rewrite (Hf x Hx), Hx.
  - by rewrite IH.
Qed.




End UniqueIds.

















(** * Further properties *)

(** ** Registering and listing registrations *)

Lemma bind_cast_field {A B} (c : Cast A) (f : option A → M B) s :
  (cast_field c ≫= f) s =
    match c with
    | Missing => f None s
    | Value a => f (Some a) s
    | Uncastable raw => (inl (CastError raw), s)
    end.
Proof. by destruct c. Qed.

(** A body of castable paths whose id is free is stored as it is. *)
Lemma post_register_stored env i name email location church phone check s :
  let b := {| reg_id := of_option i; reg_name := of_option name;
              reg_email := of_option email; reg_location := of_option location;
              reg_church := of_option church; reg_phone := of_option phone;
              reg_check := of_option check |} in
  let u := User.mk (default (newId env) i) name email location church phone
                   (default false check) in
  find_by_id User._id (User._id u) (users s) = None →
  run (post_register env b) s =
    (inr {| status := 201; body := Message "User registered successfully" |},
     set_users (λ c, (c ++ [u])%list) s).
Proof.
  intros b u Hfree. subst b u. simpl in Hfree.
  unfold run, post_register, try_catch. simpl.
  destruct i, name, email, location, church, phone, check; simpl in *;
    unfold mbind, M_bind, save_new_user, insert; simpl;
    by rewrite Hfree.
Qed.

(** X1.  A registration whose paths can all be cast and whose id is free
    is answered 201 and stored after the registrations already there,
    with the submitted fields as they are; [check] is false unless the
    body itself sets it, and the id is the drawn one unless the body
    brings its own.  GET /api/register then lists the earlier
    registrations in their order followed by the new one.  Posts, events
    and files are untouched. *)
Theorem register_then_list
    (env : Env) (i : option ObjectId) (name email location church phone : option string)
    (check : option bool) (s : Server) :
  let b := {| reg_id := of_option i; reg_name := of_option name;
              reg_email := of_option email; reg_location := of_option location;
              reg_church := of_option church; reg_phone := of_option phone;
              reg_check := of_option check |} in
  let u := User.mk (default (newId env) i) name email location church phone
                   (default false check) in
  find_by_id User._id (default (newId env) i) (users s) = None →
  let after := run (post_register env b) s in
  after.1 = inr {| status := 201; body := Message "User registered successfully" |}
  ∧ users after.2 = (users s ++ [u])%list
  ∧ find_by_id User._id (User._id u) (users after.2) = Some u
  ∧ blogs after.2 = blogs s ∧ events after.2 = events s ∧ files after.2 = files s
  ∧ get_register after.2 = (inr (Listed 200 (users s ++ [u])%list), after.2).
Proof.
  intros b u Hfree after. subst after b.
  rewrite (post_register_stored env i name email location church phone check s Hfree).
  fold u. simpl. repeat split.
  rewrite find_by_id_snoc. simpl. rewrite Hfree. by rewrite decide_True.
Qed.

Lemma register_then_list_witness :
  (run (post_register sample_env
          {| reg_id := Missing; reg_name := Value "Cy"; reg_email := Value "cy@example.org";
             reg_location := Missing; reg_church := Value "Hope"; reg_phone := Missing;
             reg_check := Missing |}) sample_server).1
  = inr {| status := 201; body := Message "User registered successfully" |}.
Proof.
  apply (register_then_list sample_env None (Some "Cy") (Some "cy@example.org")
           None (Some "Hope") None None sample_server).
  vm_compute. reflexivity.
Defined.

(** X2.  A registration with a path that cannot be cast, or whose id (its
    own or the drawn one) is already taken, is answered 400 and nothing
    is stored: in particular a body that brings the [_id] of a stored
    registration does not overwrite it. *)
Theorem register_refused (env : Env) (b : RegBody) (s : Server) :
  unacceptable b = true
  ∨ is_Some (find_by_id User._id (reg_oid env b) (users s)) →
  ∃ e, run (post_register env b) s =
         (inr {| status := 400;
                 body := MessageError "Error registering user" e |}, s).
Proof.
  destruct b as [i name email location church phone check].
  unfold unacceptable, reg_oid. simpl. intros H.
  unfold run, post_register, try_catch. simpl.
  rewrite bind_cast_field.
  destruct i as [|i|raw]; [ | |by eexists];
    (rewrite bind_cast_field; destruct name; [ | |by eexists]);
    (rewrite bind_cast_field; destruct email; [ | |by eexists]);
    (rewrite bind_cast_field; destruct location; [ | |by eexists]);
    (rewrite bind_cast_field; destruct church; [ | |by eexists]);
    (rewrite bind_cast_field; destruct phone; [ | |by eexists]);
    (rewrite bind_cast_field; destruct check; [ | |by eexists]);
    (destruct H as [H|[x Hx]]; [discriminate|]);
    unfold mbind, M_bind, save_new_user, insert; simpl in *; rewrite Hx;
    by eexists.
Qed.

Lemma register_refused_witness :
  ∃ e, run (post_register sample_env
              {| reg_id := Value sample_oid; reg_name := Value "Mallory";
                 reg_email := Missing; reg_location := Missing;
                 reg_church := Missing; reg_phone := Missing;
                 reg_check := Value true |}) sample_server
       = (inr {| status := 400;
                 body := MessageError "Error registering user" e |},
          sample_server).
Proof.
  apply (register_refused sample_env _ sample_server).
  right. vm_compute. eauto.
Defined.

(** ** Reading, creating and missing posts *)

Lemma get_blog_found src s id i b :
  castObjectId id = Some i → find_by_id Blog._id i (blogs s) = Some b →
  run (get_blog src id) s = (inr {| status := 200; body := OneBlog b |}, s).
Proof.
  intros Hid Hb. unfold run, get_blog, guarded.
  destruct src; unfold try_catch, mbind, M_bind, findById;
    rewrite Hid; simpl; by rewrite Hb.
Qed.

Lemma get_blogs_run src s : get_blogs src s = (inr (Listed 200 (blogs s)), s).
Proof. by destruct src. Qed.

(** X3.  POST /api/blogs, to either entry point, with a form of text
    fields and a drawn id that is free is answered 201; the post is
    stored after the posts already there, with the title and content of
    the form, the path of the upload (or the empty string) as image and
    both timestamps as the clock reads when the post is saved (the name
    of the upload is made from an earlier reading).  Read from
    [src/index.js], GET /api/blogs then lists the earlier posts in their
    order followed by it, and GET /api/blogs/:id with the text of its id
    answers 200 with it.  Read from [src/unnamed/part_000], the same GET
    request does not give the post: the catch-all takes it. *)
Theorem create_post_then_read
    (src : Source) (env env' : Env) (cfg : Config)
    (provider : AxiosRequest → Reply) (lookup : Lookup) (q : option string)
    (pg : PageQuery) (form : BlogForm) (s : Server) (id : string) :
  find_by_id Blog._id (newId env) (blogs s) = None →
  castObjectId id = Some (newId env) →
  let on src env m path payload :=
    serve src env cfg provider lookup (Build_Request m path q pg payload) in
  ∃ b after,
    on src env POST ["api"; "blogs"] (BlogFormData (text_form form)) s
    = Some (inr (Handled {| status := 201; body := OneBlog b |}), after)
    ∧ blogs after = (blogs s ++ [b])%list
    ∧ Blog._id b = newId env
    ∧ Blog.title b = form_title form ∧ Blog.content b = form_content form
    ∧ Blog.image b = match form_image form with
                     | Some file => "uploads/" +:+ filename (now env) file
                     | None => ""
                     end
    ∧ Blog.createdAt b = saveTime env ∧ Blog.updatedAt b = saveTime env
    ∧ users after = users s ∧ events after = events s
    ∧ on index_js env' GET ["api"; "blogs"] NoPayload after
      = Some (inr (BlogsListed (Listed 200 (blogs s ++ [b])%list)), after)
    ∧ on index_js env' GET ["api"; "blogs"; id] NoPayload after
      = Some (inr (Handled {| status := 200; body := OneBlog b |}), after)
    ∧ ∃ a, on part_000 env' GET ["api"; "blogs"; id] NoPayload after
           = Some (inr a, after)
           ∧ (a = IndexPage ∨ ∃ p, a = StaticFile p).
Proof.
  intros Hfree Hid on. subst on. cbv beta.
  assert (Hne : id ≠ "") by (by intros ->).
  exists (new_blog env form).
  exists (set_blogs (λ c, (c ++ [new_blog env form])%list)
            (after_upload (now env) (form_image form) s)).
  assert (Hblogs : blogs (set_blogs (λ c, (c ++ [new_blog env form])%list)
                            (after_upload (now env) (form_image form) s))
                   = (blogs s ++ [new_blog env form])%list).
  { unfold after_upload. by destruct (form_image form). }
  split.
  { rewrite serve_post_blogs, post_blogs_raw_text, post_blogs_run, Hfree. done. }
  split; [done|]. split; [done|]. split; [done|].
  split; [done|]. split; [done|]. split; [done|]. split; [done|].
  split; [unfold after_upload; by destruct (form_image form)|].
  split; [unfold after_upload; by destruct (form_image form)|].
  split; [by rewrite serve_index_js_get_blogs, get_blogs_run, Hblogs|].
  split.
  - rewrite serve_index_js_get_blog by done.
    rewrite (get_blog_found index_js _ id (newId env) (new_blog env form));
      [done | done |].
    rewrite Hblogs, find_by_id_snoc, Hfree. simpl. by rewrite decide_True.
  - rewrite serve_part_000_read by done. eexists. split; [reflexivity|].
    cbn [req_path].
    destruct (lookup "frontend/dist" _) as [p|]; [right; by exists p|].
    destruct (_ ≫= lookup "uploads") as [p|]; [right; by exists p | by left].
Qed.

Lemma create_post_then_read_witness :
  ∃ b after,
    serve part_000 sample_env sample_config silent_provider no_static_file
      (Build_Request POST ["api"; "blogs"] None {| page := None; limit := None |}
         (BlogFormData (text_form sample_new_form))) sample_blog_server
    = Some (inr (Handled {| status := 201; body := OneBlog b |}), after)
    ∧ Blog.image b = "uploads/1700000500000.png"
    ∧ Blog.createdAt b = 1700000500015.
Proof.
  destruct (create_post_then_read part_000 sample_env sample_env sample_config
              silent_provider no_static_file None
              {| page := None; limit := None |} sample_new_form
              sample_blog_server sample_new_id)
    as (b & after & Hr & _ & _ & _ & _ & Himg & Hat & _);
    [vm_compute; reflexivity ..|].
  exists b, after. split; [exact Hr|]. split; [exact Himg | exact Hat].
Defined.

Lemma put_blogs_absent src env s id i form :
  castObjectId id = Some i → find_by_id Blog._id i (blogs s) = None →
  run (put_blogs src env id form) s =
    (inr {| status := 404; body := Error "Blog not found" |},
     after_upload (now env) (form_image form) s).
Proof.
  intros Hid Hb. unfold run, put_blogs, after_upload.
  unfold mbind at 1. unfold M_bind at 1. rewrite upload_single_run.
  destruct (form_image form) as [file|]; unfold guarded;
    destruct src; unfold try_catch, mbind, M_bind, findById;
    rewrite Hid; simpl; by rewrite Hb.
Qed.

Lemma delete_blogs_absent src s id i :
  castObjectId id = Some i → find_by_id Blog._id i (blogs s) = None →
  run (delete_blogs src id) s =
    (inr {| status := 404; body := Error "Blog not found" |}, s).
Proof.
  intros Hid Hb. unfold run, delete_blogs, guarded.
  destruct src; unfold try_catch, mbind, M_bind, findById;
    rewrite Hid; simpl; by rewrite Hb.
Qed.

(** X4.  An update addressed to a well-formed id that names no post is
    answered 404 and changes no record; but multer has already run, so
    a file that came with the request stays on disk, referred to by
    nothing. *)
Theorem update_of_unknown_post_keeps_the_upload
    (src : Source) (env : Env) (s : Server) (id : string) (i : ObjectId)
    (form : BlogForm) :
  castObjectId id = Some i → find_by_id Blog._id i (blogs s) = None →
  let after := run (put_blogs src env id form) s in
  after.1 = inr {| status := 404; body := Error "Blog not found" |}
  ∧ users after.2 = users s ∧ blogs after.2 = blogs s ∧ events after.2 = events s
  ∧ files after.2 = match form_image form with
                    | Some file => {[ "uploads/" +:+ filename (now env) file ]} ∪ files s
                    | None => files s
                    end.
Proof.
  intros Hid Hb after. subst after.
  rewrite (put_blogs_absent src env s id i form Hid Hb).
  unfold after_upload. by destruct (form_image form).
Qed.

Lemma update_of_unknown_post_keeps_the_upload_witness :
  files (run (put_blogs index_js sample_env absent_id sample_form)
             sample_blog_server).2
  = {[ "uploads/1700000500000.jpg" ]} ∪ files sample_blog_server.
Proof.
  apply (update_of_unknown_post_keeps_the_upload index_js sample_env
           sample_blog_server absent_id 1%N sample_form);
    vm_compute; reflexivity.
Defined.

(** X5.  An id of the route that is not the text of an ObjectId makes
    Mongoose throw.  In [src/index.js] the [catch] block of each of the
    four routes that take a post or event id answers 500; in
    [src/unnamed/part_000] nothing catches it in the two such routes
    that requests reach, DELETE and PUT /api/blogs/:id, and no answer is
    sent.  Either way no record changes; for the update, the upload is
    already on disk. *)
Theorem malformed_id_is_500_or_uncaught
    (env : Env) (s : Server) (id : string) (form : BlogForm) :
  castObjectId id = None →
  run (get_blog index_js id) s =
    (inr {| status := 500;
            body := MessageError "Error fetching blog" (CastError id) |}, s)
  ∧ run (delete_blogs index_js id) s =
      (inr {| status := 500;
              body := MessageError "Error deleting blog" (CastError id) |}, s)
  ∧ run (put_blogs index_js env id form) s =
      (inr {| status := 500;
              body := MessageError "Error updating blog" (CastError id) |},
       after_upload (now env) (form_image form) s)
  ∧ run (delete_events id) s =
      (inr {| status := 500;
              body := MessageError "Error deleting event" (CastError id) |}, s)
  ∧ run (delete_blogs part_000 id) s = (inl (CastError id), s)
  ∧ run (put_blogs part_000 env id form) s =
      (inl (CastError id), after_upload (now env) (form_image form) s).
Proof.
  intros Hid.
  unfold run, get_blog, delete_blogs, delete_events, put_blogs, guarded,
    try_catch, after_upload.
  repeat split;
    try (unfold mbind at 1; unfold M_bind at 1; rewrite upload_single_run;
         destruct (form_image form));
    unfold mbind, M_bind, findById; by rewrite Hid.
Qed.

Lemma malformed_id_is_500_or_uncaught_witness :
  run (delete_blogs part_000 "abc") sample_blog_server
  = (inl (CastError "abc"), sample_blog_server).
Proof.
  apply (malformed_id_is_500_or_uncaught sample_env sample_blog_server "abc"
           text_only_form).
  vm_compute. reflexivity.
Defined.

(** ** More on updating and deleting a post *)

Lemma put_edited_unchanged t form b :
  put_edited t form b = b
  ↔ or_else (form_title form) (Blog.title b) = Blog.title b
    ∧ or_else (form_content form) (Blog.content b) = Blog.content b
    ∧ put_image t form b = Blog.image b.
Proof.
  unfold put_edited. destruct b as [i ti co im cr up]. simpl. split.
  - intros [= -> -> ->]. done.
  - intros (-> & -> & ->). done.
Qed.

(** X6.  An update never changes the id or the creation time of the
    post.  When the request changes none of title, content and image
    nothing is written: the answer is the stored post and the collection
    is as before, [updatedAt] included; in particular a request without
    a file and without any non-empty text changes nothing at all.  When
    it changes one of them, [updatedAt] becomes the time of the
    request, as the clock reads when the post is saved. *)
Theorem update_post_timestamps
    (src : Source) (env : Env) (s : Server) (id : string) (i : ObjectId)
    (b : Blog.t) (form : BlogForm) :
  castObjectId id = Some i →
  find_by_id Blog._id i (blogs s) = Some b →
  let r := run (put_blogs src env id form) s in
  ∃ saved,
    r.1 = inr {| status := 200; body := OneBlog saved |}
    ∧ Blog._id saved = Blog._id b
    ∧ Blog.createdAt saved = Blog.createdAt b
    ∧ (Blog.title saved = Blog.title b → Blog.content saved = Blog.content b →
       Blog.image saved = Blog.image b →
       saved = b ∧ blogs r.2 = blogs s)
    ∧ (Blog.title saved ≠ Blog.title b ∨ Blog.content saved ≠ Blog.content b
       ∨ Blog.image saved ≠ Blog.image b →
       Blog.updatedAt saved = saveTime env)
    ∧ (form_image form = None →
       form_title form = None ∨ form_title form = Some "" →
       form_content form = None ∨ form_content form = Some "" →
       r = (inr {| status := 200; body := OneBlog b |}, s)).
Proof.
  intros Hid Hb r. subst r.
  rewrite (put_blogs_found src env s id i b form Hid Hb).
  destruct (put_saved_fields (now env) (saveTime env) form b) as (Sid & St & Sc & Si & Scr).
  exists (put_saved (now env) (saveTime env) form b). cbn [fst snd].
  split; [done|]. split; [done|]. split; [done|]. split.
  { rewrite St, Sc, Si. intros Ht Hc Him.
    assert (Heq : put_edited (now env) form b = b)
      by (by apply put_edited_unchanged).
    unfold put_saved. rewrite !decide_True by done.
    split; [done|]. apply put_disk_blogs. }
  split.
  { rewrite St, Sc, Si. intros Hdiff. unfold put_saved.
    destruct (decide _) as [Heq|Hne]; [|done].
    apply put_edited_unchanged in Heq as (Ht & Hc & Him).
    destruct Hdiff as [Hd|[Hd|Hd]]; by destruct Hd. }
  intros Hfile Ht Hc.
  assert (Heq : put_edited (now env) form b = b).
  { apply put_edited_unchanged. unfold put_image. rewrite Hfile.
    by rewrite !or_else_omitted. }
  unfold put_saved, put_disk. rewrite !decide_True by done. by rewrite Hfile.
Qed.

Lemma update_post_timestamps_witness :
  run (put_blogs index_js sample_env sample_blog_id
         {| form_title := Some ""; form_content := None; form_image := None |})
      sample_blog_server
  = (inr {| status := 200; body := OneBlog sample_blog |}, sample_blog_server).
Proof.
  destruct (update_post_timestamps index_js sample_env sample_blog_server
              sample_blog_id sample_blog_oid sample_blog
              {| form_title := Some ""; form_content := None; form_image := None |})
    as (saved & _ & _ & _ & _ & _ & Hnoop); [vm_compute; reflexivity ..|].
  apply Hnoop; [reflexivity | by right | by left].
Defined.

(** X7.  An update touches one post only: the ids of the collection are
    the same in the same order, every other post is as it was, and so
    are the registrations and the events. *)
Theorem update_post_frame
    (src : Source) (env : Env) (s : Server) (id : string) (i : ObjectId)
    (b : Blog.t) (form : BlogForm) :
  castObjectId id = Some i →
  find_by_id Blog._id i (blogs s) = Some b →
  let after := (run (put_blogs src env id form) s).2 in
  Blog._id <$> blogs after = Blog._id <$> blogs s
  ∧ (∀ j, j ≠ i → find_by_id Blog._id j (blogs after) = find_by_id Blog._id j (blogs s))
  ∧ users after = users s ∧ events after = events s.
Proof.
  intros Hid Hb after. subst after.
  rewrite (put_blogs_found src env s id i b form Hid Hb).
  destruct (find_by_id_Some Blog._id i (blogs s) b Hb) as [Hbi _].
  destruct (put_saved_fields (now env) (saveTime env) form b) as (Sid & _).
  assert (Hu : users (put_disk (now env) form b s) = users s
               ∧ events (put_disk (now env) form b s) = events s).
  { unfold put_disk. destruct (form_image form); [|done].
    unfold after_remove. by destruct (_ && _). }
  destruct Hu as [Hu He]. cbn [snd].
  destruct (decide _) as [Heq|Hne]; simpl; rewrite ?put_disk_blogs.
  - done.
  - split; [|split; [|done]].
    + apply update_by_id_ids. intros d Hd. by rewrite Sid.
    + intros j Hj. rewrite Hbi. clear Hb.
      induction (blogs s) as [|x c IH]; simpl; [done|].
      destruct (decide (Blog._id x = i)) as [Hx|Hx]; simpl.
      * rewrite Sid, Hbi. rewrite !decide_False; [done | congruence | congruence].
      * by rewrite IH.
Qed.

Lemma update_post_frame_witness :
  Blog._id <$> blogs (run (put_blogs index_js sample_env sample_blog_id sample_form)
                          sample_blog_server).2
  = Blog._id <$> blogs sample_blog_server.
Proof.
  apply (update_post_frame index_js sample_env sample_blog_server sample_blog_id
           sample_blog_oid sample_blog sample_form); vm_compute; reflexivity.
Defined.

Lemma delete_by_id_length {T} (oid : T → ObjectId) i c d :
  find_by_id oid i c = Some d →
  S (List.length (delete_by_id oid i c)) = List.length c.
Proof.
  induction c as [|x c IH]; simpl; [done|].
  destruct (decide (oid x = i)); simpl; [done|]. intros H. by rewrite IH.
Qed.

(** X8.  Deleting a stored post answers 204 and removes exactly that
    record: the collection is one shorter, every other post is found as
    before, registrations and events are as they were, and of the files
    only the image of the post, if it has one, is gone.  With ids unique
    in the collection a second delete of the same id is answered 404 by
    either entry point and changes nothing. *)
Theorem delete_post_frame_and_repeat
    (src : Source) (s : Server) (id : string) (i : ObjectId) (b : Blog.t) :
  castObjectId id = Some i →
  find_by_id Blog._id i (blogs s) = Some b →
  let d := run (delete_blogs src id) s in
  d.1 = inr {| status := 204; body := Empty |}
  ∧ S (List.length (blogs d.2)) = List.length (blogs s)
  ∧ (∀ j, j ≠ i → find_by_id Blog._id j (blogs d.2) = find_by_id Blog._id j (blogs s))
  ∧ users d.2 = users s ∧ events d.2 = events s
  ∧ files d.2 = (if decide (Blog.image b = "") then files s
                 else files s ∖ {[Blog.image b]})
  ∧ (unique_ids Blog._id (blogs s) →
     ∀ src', run (delete_blogs src' id) d.2 =
               (inr {| status := 404; body := Error "Blog not found" |}, d.2)).
Proof.
  intros Hid Hb d. subst d.
  rewrite (delete_blogs_found src s id i b Hid Hb). cbn [fst snd].
  split; [done|]. simpl. rewrite after_remove_blogs.
  split; [by apply (delete_by_id_length Blog._id i _ b)|].
  split; [intros j Hj; by apply find_by_id_delete_ne|].
  split; [unfold after_remove; by destruct (_ && _)|].
  split; [unfold after_remove; by destruct (_ && _)|].
  split; [apply after_remove_files|].
  intros Huniq src'. apply (delete_blogs_absent src' _ id i Hid). simpl.
  rewrite after_remove_blogs. by apply find_by_id_delete.
Qed.

Lemma delete_post_frame_and_repeat_witness :
  (run (delete_blogs part_000 sample_blog_id) sample_blog_server).1
    = inr {| status := 204; body := Empty |}
  ∧ run (delete_blogs index_js sample_blog_id)
        (run (delete_blogs part_000 sample_blog_id) sample_blog_server).2
    = (inr {| status := 404; body := Error "Blog not found" |},
       (run (delete_blogs part_000 sample_blog_id) sample_blog_server).2).
Proof.
  destruct (delete_post_frame_and_repeat part_000 sample_blog_server
              sample_blog_id sample_blog_oid sample_blog)
    as (H204 & _ & _ & _ & _ & _ & Hagain); [vm_compute; reflexivity ..|].
  split; [exact H204|]. apply Hagain.
  apply (bool_decide_unpack _). vm_compute. exact I.
Defined.

(** X9.  The name of an upload is made of the clock and the extension
    only.  When the file of an update gets the very name the post's
    image already has (the same millisecond and extension as the upload
    it replaces), multer overwrites the file and the handler then
    removes it as the old image: the update answers 200 with a post
    whose image is that path, and no file is at that path. *)
Theorem update_with_same_name_loses_the_file
    (src : Source) (env : Env) (s : Server) (id : string) (i : ObjectId)
    (b : Blog.t) (form : BlogForm) (file : Upload) :
  castObjectId id = Some i →
  find_by_id Blog._id i (blogs s) = Some b →
  form_image form = Some file →
  Blog.image b = "uploads/" +:+ filename (now env) file →
  let r := run (put_blogs src env id form) s in
  ∃ saved,
    r.1 = inr {| status := 200; body := OneBlog saved |}
    ∧ find_by_id Blog._id i (blogs r.2) = Some saved
    ∧ Blog.image saved = Blog.image b
    ∧ Blog.image saved ∉ files r.2.
Proof.
  intros Hid Hb Hfile Himg r. subst r.
  rewrite (put_blogs_found src env s id i b form Hid Hb).
  destruct (find_by_id_Some Blog._id i (blogs s) b Hb) as [Hbi _].
  destruct (put_saved_fields (now env) (saveTime env) form b) as (Sid & _ & _ & Si & _).
  exists (put_saved (now env) (saveTime env) form b). cbn [fst snd].
  assert (Hpath : put_image (now env) form b = Blog.image b).
  { unfold put_image. by rewrite Hfile, Himg. }
  assert (Hne : Blog.image b ≠ "") by (rewrite Himg; discriminate).
  assert (Hfiles : Blog.image b ∉ files (put_disk (now env) form b s)).
  { unfold put_disk. rewrite Hfile, after_remove_files.
    rewrite decide_False by done.
    rewrite elem_of_difference, elem_of_singleton. by intros [_ ?]. }
  split; [done|]. rewrite Si, Hpath. split; [|split; [done|]].
  - destruct (decide _) as [Heq|Hneq].
    + rewrite put_disk_blogs, Hb. unfold put_saved. by rewrite decide_True.
    + simpl. rewrite put_disk_blogs, Hbi.
      apply (find_by_id_replace Blog._id i _ (blogs s) b Hb). by rewrite Sid.
  - by destruct (decide _).
Qed.

Lemma update_with_same_name_loses_the_file_witness :
  ∃ saved,
    (run (put_blogs index_js {| now := 1700000000000; saveTime := 1700000000020; newId := 0%N |}
            sample_blog_id
            {| form_title := None; form_content := None;
               form_image := Some sample_upload |})
         sample_blog_server).1
      = inr {| status := 200; body := OneBlog saved |}
    ∧ Blog.image saved = "uploads/1700000000000.png"
    ∧ Blog.image saved ∉
        files (run (put_blogs index_js {| now := 1700000000000; saveTime := 1700000000020; newId := 0%N |}
                      sample_blog_id
                      {| form_title := None; form_content := None;
                         form_image := Some sample_upload |})
                   sample_blog_server).2.
Proof.
  destruct (update_with_same_name_loses_the_file index_js
              {| now := 1700000000000; saveTime := 1700000000020; newId := 0%N |} sample_blog_server
              sample_blog_id sample_blog_oid sample_blog
              {| form_title := None; form_content := None;
                 form_image := Some sample_upload |} sample_upload)
    as (saved & Hr & _ & Himg & Hgone); [vm_compute; reflexivity ..|].
  exists saved. split; [exact Hr|]. split; [by rewrite Himg | exact Hgone].
Defined.

(** ** Records and their files *)

Lemma media_perm imgs imgs' disk :
  imgs ≡ₚ imgs' → media imgs disk → media imgs' disk.
Proof.
  intros Hp [Hnd Hin]. split.
  - by rewrite <- Hp.
  - intros p Hp'. apply Hin. by rewrite Hp.
Qed.

Lemma media_more_files imgs (disk disk' : gset string) :
  (∀ p, p ∈ disk → p ∈ disk') → media imgs disk → media imgs disk'.
Proof. intros Hsub [Hnd Hin]. split; [done|]. intros p Hp Hne. by apply Hsub, Hin. Qed.

(** A record is added whose image is a path that was not on disk. *)
Lemma media_add imgs (disk : gset string) p :
  p ∉ disk → media imgs disk → media (p :: imgs) ({[p]} ∪ disk).
Proof.
  intros Hnew [Hnd Hin]. split.
  - rewrite filter_cons. case_decide; [|done].
    apply NoDup_cons. split; [|done].
    intros Hp. apply list_elem_of_filter in Hp as [? Hp]. by apply Hnew, Hin.
  - intros q Hq Hne. apply elem_of_cons in Hq as [->|Hq].
    + apply elem_of_union_l, elem_of_singleton. done.
    + by apply elem_of_union_r, Hin.
Qed.

(** A record is added that has no image. *)
Lemma media_add_none imgs disk : media imgs disk → media ("" :: imgs) disk.
Proof.
  intros [Hnd Hin]. split.
  - by rewrite filter_cons_False by (by intros ?).
  - intros q Hq Hne. apply elem_of_cons in Hq as [->|Hq]; [done | by apply Hin].
Qed.

(** A record goes, and its image with it. *)
Lemma media_drop imgs (disk : gset string) p :
  media (p :: imgs) disk →
  media imgs (if decide (p = "") then disk else disk ∖ {[p]}).
Proof.
  intros [Hnd Hin]. rewrite filter_cons in Hnd.
  destruct (decide (p = "")) as [->|Hne].
  - rewrite decide_False in Hnd by (by intros ?).
    split; [done|]. intros q Hq Hq'. apply Hin; [by apply list_elem_of_further | done].
  - rewrite decide_True in Hnd by done.
    apply NoDup_cons in Hnd as [Hp Hnd]. split; [done|].
    intros q Hq Hq'. apply elem_of_difference. split.
    + apply Hin; [by apply list_elem_of_further | done].
    + rewrite elem_of_singleton. intros ->. apply Hp.
      by apply list_elem_of_filter.
Qed.

(** The image of a record is replaced by a path that was not on disk. *)
Lemma media_replace imgs (disk : gset string) old new :
  new ∉ disk → media (old :: imgs) disk →
  media (new :: imgs)
        (if decide (old = "") then {[new]} ∪ disk else ({[new]} ∪ disk) ∖ {[old]}).
Proof.
  intros Hnew Hm.
  assert (Hdrop := media_drop imgs disk old Hm).
  destruct (decide (old = "")) as [->|Hne]; [by apply media_add|].
  assert (Hold : old ∈ disk).
  { destruct Hm as [_ Hin]. apply Hin; [apply list_elem_of_here | done]. }
  assert (Heq : ({[new]} ∪ disk) ∖ {[old]} = {[new]} ∪ disk ∖ {[old]}).
  { apply set_eq. intros q.
    rewrite elem_of_difference, !elem_of_union, elem_of_difference, !elem_of_singleton.
    split; [tauto|]. intros [->|[? ?]]; [|tauto].
    split; [by left|]. by intros ->. }
  rewrite Heq. apply media_add; [|done].
  rewrite elem_of_difference. by intros [? _].
Qed.

Section Images.
Context {T : Type} (oid : T → ObjectId) (img : T → string).

Lemma images_found i c b :
  find_by_id oid i c = Some b →
  img <$> c ≡ₚ img b :: (img <$> delete_by_id oid i c).
Proof.
  induction c as [|x c IH]; [done|]. cbn [find_by_id delete_by_id].
  destruct (decide (oid x = i)); rewrite !fmap_cons.
  - by intros [= ->].
  - intros H. rewrite (IH H). apply Permutation_swap.
Qed.

Lemma images_updated i c b d :
  find_by_id oid i c = Some b →
  img <$> update_by_id oid i (λ _, d) c ≡ₚ img d :: (img <$> delete_by_id oid i c).
Proof.
  induction c as [|x c IH]; [done|]. cbn [find_by_id delete_by_id update_by_id].
  destruct (decide (oid x = i)); rewrite !fmap_cons.
  - done.
  - intros H. rewrite (IH H). apply Permutation_swap.
Qed.

Lemma images_snoc c d : img <$> (c ++ [d])%list ≡ₚ img d :: (img <$> c).
Proof. rewrite fmap_app. simpl. by rewrite <- Permutation_cons_append. Qed.

End Images.

Lemma leaves_media_ret {A} (a : A) : leaves_media (mret a).
Proof. by intros s. Qed.

Lemma leaves_media_throw {A} e : leaves_media (@throw A e).
Proof. by intros s. Qed.

Lemma leaves_media_bind {A B} (m : M A) (f : A → M B) :
  leaves_media m → (∀ a, leaves_media (f a)) → leaves_media (m ≫= f).
Proof.
  intros Hm Hf s. unfold mbind, M_bind.
  specialize (Hm s). destruct (m s) as [[e|a] s']; simpl in *; [done|].
  destruct (Hf a s') as (-> & -> & ->). done.
Qed.

Lemma leaves_media_try_catch {A} (m : M A) (h : exn → M A) :
  leaves_media m → (∀ e, leaves_media (h e)) → leaves_media (try_catch m h).
Proof.
  intros Hm Hh s. unfold try_catch.
  specialize (Hm s). destruct (m s) as [[e|a] s']; simpl in *; [|done].
  destruct (Hh e s') as (-> & -> & ->). done.
Qed.

Lemma leaves_media_guarded src m h :
  leaves_media m → (∀ e, leaves_media (h e)) → leaves_media (guarded src m h).
Proof. destruct src; simpl; [apply leaves_media_try_catch | done]. Qed.

Lemma leaves_media_findById {T} (oid : T → ObjectId) coll id :
  leaves_media (findById oid coll id).
Proof. intros s. unfold findById. by destruct (castObjectId id). Qed.

Lemma leaves_media_cast_field {A} (c : Cast A) : leaves_media (cast_field c).
Proof. intros s. by destruct c. Qed.

Lemma leaves_media_find_blogs P skip lim : leaves_media (find_blogs P skip lim).
Proof. intros s. unfold find_blogs. by destruct (skip <? 0). Qed.

Lemma leaves_media_settle n r : leaves_media (settle n r).
Proof.
  revert n. induction r as [st d| |st target IH]; intros n; cbn [settle].
  - destruct (_ && _); [apply leaves_media_ret | apply leaves_media_throw].
  - apply leaves_media_throw.
  - destruct n; [apply leaves_media_throw | apply IH].
Qed.

(** X10.  The routes of the registrations and of the subscription, and
    every GET route, never touch the posts, the events or the files,
    whatever the request and whether they succeed or fail. *)
Theorem other_routes_leave_media_alone :
  (∀ env b, leaves_media (post_register env b))
  ∧ leaves_media get_register
  ∧ (∀ id req_body, leaves_media (patch_register id req_body))
  ∧ (∀ src, leaves_media (get_blogs src))
  ∧ (∀ src id, leaves_media (get_blog src id))
  ∧ (∀ q, leaves_media (get_blogs_main q))
  ∧ (∀ q h, get_blogs_search q = Some h → leaves_media h)
  ∧ (∀ env, leaves_media (get_events env))
  ∧ (∀ src cfg provider req_body,
       leaves_media (post_subscribe src cfg provider req_body)).
Proof.
  split.
  { intros env b. apply leaves_media_try_catch; [|intros; apply leaves_media_ret].
    repeat (apply leaves_media_bind; [apply leaves_media_cast_field|]; intros ?).
    apply leaves_media_bind; [|intros; apply leaves_media_ret].
    intros s. unfold save_new_user. by destruct (insert _ _ _). }
  split; [by intros s|]. split.
  { intros id req_body.
    apply leaves_media_try_catch; [|intros; apply leaves_media_ret].
    apply leaves_media_bind.
    - intros s. unfold findByIdAndUpdate_check. by destruct (castObjectId id).
    - intros [u|]; apply leaves_media_ret. }
  split; [intros src s; by destruct src|]. split.
  { intros src id. apply leaves_media_guarded; [|intros; apply leaves_media_ret].
    apply leaves_media_bind; [apply leaves_media_findById|].
    intros [b|]; apply leaves_media_ret. }
  split.
  { intros q. apply leaves_media_bind; [apply leaves_media_find_blogs|].
    intros found. apply leaves_media_bind; [by intros s|].
    intros n. apply leaves_media_ret. }
  split.
  { intros q h. unfold get_blogs_search.
    destruct (compile (searchQuery q)); [|done]. intros [= <-].
    apply leaves_media_bind; [apply leaves_media_find_blogs|].
    intros found. apply leaves_media_ret. }
  split.
  { intros env. apply leaves_media_try_catch; [|intros; apply leaves_media_ret].
    apply leaves_media_bind; [by intros s|]. intros found. apply leaves_media_ret. }
  intros src cfg provider req_body. unfold post_subscribe.
  destruct (falsy _); [apply leaves_media_ret|].
  apply leaves_media_try_catch; [|intros; apply leaves_media_ret].
  apply leaves_media_bind.
  - apply leaves_media_settle.
  - intros r. destruct (_ && _); apply leaves_media_ret.
Qed.

Lemma delete_blogs_state src s id :
  (run (delete_blogs src id) s).2 =
    match castObjectId id with
    | Some i =>
        match find_by_id Blog._id i (blogs s) with
        | Some b => set_blogs (delete_by_id Blog._id i) (after_remove (Blog.image b) s)
        | None => s
        end
    | None => s
    end.
Proof.
  destruct (castObjectId id) as [i|] eqn:Hid.
  - destruct (find_by_id Blog._id i (blogs s)) as [b|] eqn:Hb.
    + by rewrite (delete_blogs_found src s id i b).
    + by rewrite (delete_blogs_absent src s id i).
  - unfold run, delete_blogs, guarded.
    destruct src; unfold try_catch, mbind, M_bind, findById; by rewrite Hid.
Qed.

Lemma delete_events_state s id :
  (run (delete_events id) s).2 =
    match castObjectId id with
    | Some i =>
        match find_by_id Event._id i (events s) with
        | Some e => set_events (delete_by_id Event._id i) (after_remove (Event.image e) s)
        | None => s
        end
    | None => s
    end.
Proof.
  destruct (castObjectId id) as [i|] eqn:Hid.
  - destruct (find_by_id Event._id i (events s)) as [e|] eqn:He.
    + by rewrite (delete_events_found s id i e).
    + unfold run, delete_events, try_catch, mbind, M_bind, findById.
      rewrite Hid. simpl. by rewrite He.
  - unfold run, delete_events, try_catch, mbind, M_bind, findById. by rewrite Hid.
Qed.

Lemma put_blogs_state src env s id form :
  (run (put_blogs src env id form) s).2 =
    match castObjectId id with
    | Some i =>
        match find_by_id Blog._id i (blogs s) with
        | Some b =>
            if decide (put_edited (now env) form b = b)
            then put_disk (now env) form b s
            else set_blogs (update_by_id Blog._id (Blog._id b)
                              (λ _, put_saved (now env) (saveTime env) form b))
                           (put_disk (now env) form b s)
        | None => after_upload (now env) (form_image form) s
        end
    | None => after_upload (now env) (form_image form) s
    end.
Proof.
  destruct (castObjectId id) as [i|] eqn:Hid.
  - destruct (find_by_id Blog._id i (blogs s)) as [b|] eqn:Hb.
    + by rewrite (put_blogs_found src env s id i b).
    + by rewrite (put_blogs_absent src env s id i).
  - unfold run, put_blogs, after_upload.
    unfold mbind at 1. unfold M_bind at 1. rewrite upload_single_run.
    destruct (form_image form); unfold guarded;
      destruct src; unfold try_catch, mbind, M_bind, findById; by rewrite Hid.
Qed.

Lemma post_events_state env form s :
  (run (post_events env form) s).2 = after_upload (now env) (event_image form) s
  ∨ ∃ d, (run (post_events env form) s).2 =
           set_events (λ c, (c ++ [new_event env form d])%list)
                      (after_upload (now env) (event_image form) s).
Proof.
  unfold run, post_events, new_event, new_image, after_upload.
  unfold mbind at 1. unfold M_bind at 1. rewrite upload_single_run.
  destruct (event_image form) as [file|];
    unfold try_catch, mbind, M_bind, save_new_event, insert, throw; simpl;
    destruct (event_date form) as [|ms|raw]; simpl;
    destruct (find_by_id Event._id (newId env) (events s)); simpl;
    try (by left); right; by eexists.
Qed.

Lemma media_after_upload t part s :
  media_ok s → media_ok (after_upload t part s).
Proof.
  unfold media_ok, after_upload. destruct part; [|done].
  apply media_more_files. intros p Hp. by apply elem_of_union_r.
Qed.

Lemma media_new_record t part s (imgs' : list string) :
  media_ok s → fresh_upload t part s →
  imgs' ≡ₚ new_image t part :: images s →
  media imgs' (files (after_upload t part s)).
Proof.
  unfold media_ok, fresh_upload, new_image, after_upload.
  intros Hm Hfresh Hp. apply (media_perm _ _ _ (symmetry Hp)).
  destruct part; simpl; [by apply media_add | by apply media_add_none].
Qed.

Lemma media_post_blogs src env form s :
  media_ok s → fresh_upload (now env) (form_image form) s →
  media_ok (run (post_blogs src env form) s).2.
Proof.
  intros Hm Hfresh. rewrite post_blogs_run.
  destruct (find_by_id Blog._id (newId env) (blogs s)).
  - destruct src; by apply media_after_upload.
  - unfold media_ok. cbn [snd].
    apply (media_new_record (now env) (form_image form) s); [done | done |].
    unfold images, after_upload, new_blog.
    destruct (form_image form); simpl;
      rewrite (images_snoc Blog.image); simpl; done.
Qed.

Lemma media_post_events env form s :
  media_ok s → fresh_upload (now env) (event_image form) s →
  media_ok (run (post_events env form) s).2.
Proof.
  intros Hm Hfresh.
  destruct (post_events_state env form s) as [-> | [d ->]].
  - by apply media_after_upload.
  - unfold media_ok.
    apply (media_new_record (now env) (event_image form) s); [done | done |].
    unfold images, after_upload, new_event.
    destruct (event_image form); simpl;
      rewrite (images_snoc Event.image); simpl;
      by rewrite <- Permutation_middle.
Qed.

Lemma media_delete_blogs src id s :
  media_ok s → media_ok (run (delete_blogs src id) s).2.
Proof.
  intros Hm. rewrite delete_blogs_state.
  destruct (castObjectId id) as [i|]; [|done].
  destruct (find_by_id Blog._id i (blogs s)) as [b|] eqn:Hb; [|done].
  unfold media_ok, images in *. simpl.
  rewrite after_remove_blogs, after_remove_files.
  assert (Hev : events (after_remove (Blog.image b) s) = events s)
    by (unfold after_remove; by destruct (_ && _)).
  rewrite Hev. apply media_drop.
  eapply media_perm; [|exact Hm].
  by rewrite (images_found Blog._id Blog.image i (blogs s) b Hb).
Qed.

Lemma media_delete_events id s :
  media_ok s → media_ok (run (delete_events id) s).2.
Proof.
  intros Hm. rewrite delete_events_state.
  destruct (castObjectId id) as [i|]; [|done].
  destruct (find_by_id Event._id i (events s)) as [e|] eqn:He; [|done].
  unfold media_ok, images in *. simpl.
  assert (Hev : events (after_remove (Event.image e) s) = events s)
    by (unfold after_remove; by destruct (_ && _)).
  rewrite after_remove_blogs, after_remove_files, Hev. apply media_drop.
  eapply media_perm; [|exact Hm].
  rewrite (images_found Event._id Event.image i (events s) e He).
  by rewrite <- Permutation_middle.
Qed.

Lemma media_put_blogs src env id form s :
  media_ok s → fresh_upload (now env) (form_image form) s →
  media_ok (run (put_blogs src env id form) s).2.
Proof.
  intros Hm Hfresh. rewrite put_blogs_state.
  destruct (castObjectId id) as [i|]; [|by apply media_after_upload].
  destruct (find_by_id Blog._id i (blogs s)) as [b|] eqn:Hb;
    [|by apply media_after_upload].
  destruct (find_by_id_Some Blog._id i (blogs s) b Hb) as [Hbi _].
  destruct (put_saved_fields (now env) (saveTime env) form b) as (_ & _ & _ & Si & _).
  assert (Hold : media (Blog.image b
                        :: ((Blog.image <$> delete_by_id Blog._id i (blogs s))
                            ++ (Event.image <$> events s))%list) (files s)).
  { eapply media_perm; [|exact Hm]. unfold images.
    by rewrite (images_found Blog._id Blog.image i (blogs s) b Hb). }
  assert (Hev : events (put_disk (now env) form b s) = events s).
  { unfold put_disk. destruct (form_image form); [|done].
    unfold after_remove. by destruct (_ && _). }
  destruct (form_image form) as [file|] eqn:Hfile.
  - (* a file came with the request *)
    simpl in Hfresh.
    assert (Hdiff : put_edited (now env) form b ≠ b).
    { intros Heq. apply put_edited_unchanged in Heq as (_ & _ & Himg).
      unfold put_image in Himg. rewrite Hfile in Himg.
      apply Hfresh. destruct Hold as [_ Hin]. rewrite Himg.
      apply Hin; [apply list_elem_of_here|]. rewrite <- Himg. discriminate. }
    rewrite decide_False by done.
    unfold media_ok, images. simpl. rewrite put_disk_blogs, Hev, Hbi.
    eapply media_perm.
    { symmetry.
      rewrite (images_updated Blog._id Blog.image i (blogs s) b _ Hb). done. }
    rewrite Si. unfold put_image, put_disk. rewrite Hfile, after_remove_files.
    simpl. by apply media_replace.
  - (* no file: the image stays *)
    unfold put_disk. rewrite Hfile.
    destruct (decide _) as [Heq|Hne]; [done|].
    unfold media_ok, images. simpl. rewrite Hbi.
    eapply media_perm; [|exact Hold].
    rewrite (images_updated Blog._id Blog.image i (blogs s) b _ Hb).
    rewrite Si. unfold put_image. by rewrite Hfile.
Qed.

Lemma text_form_untext form :
  castable (raw_title form) && castable (raw_content form) = true →
  text_form (untext form) = form.
Proof. by destruct form as [[[t|r]|] [[c|r']|] img]. Qed.

Lemma text_event_form_untext form :
  castable (raw_event_title form) && castable (raw_event_time form) = true →
  text_event_form (untext_event form) = form.
Proof. by destruct form as [[[t|r]|] d [[c|r']|] img]. Qed.

(** A field that cannot be cast: the upload stays, nothing is stored. *)
Lemma post_blogs_raw_refused src env form s :
  castable (raw_title form) && castable (raw_content form) = false →
  (run (post_blogs_raw src env form) s).2
  = after_upload (now env) (raw_image form) s.
Proof.
  intros Hc. unfold run, post_blogs_raw, after_upload.
  unfold mbind at 1. unfold M_bind at 1. rewrite upload_single_run.
  destruct form as [[[t|r]|] [[c|r']|] [file|]]; try discriminate Hc;
    by destruct src.
Qed.

Lemma post_events_raw_refused env form s :
  castable (raw_event_title form) && castable (raw_event_time form) = false →
  (run (post_events_raw env form) s).2
  = after_upload (now env) (raw_event_image form) s.
Proof.
  intros Hc. unfold run, post_events_raw, after_upload.
  unfold mbind at 1. unfold M_bind at 1. rewrite upload_single_run.
  by destruct form as [[[t|r]|] [ |ms|raw] [[c|r']|] [file|]];
    try discriminate Hc.
Qed.

(** The update of a stored post with a field that cannot be cast: the
    old image has been removed when [save()] is refused. *)
Lemma put_blogs_raw_refused src env s id i b form :
  castObjectId id = Some i →
  find_by_id Blog._id i (blogs s) = Some b →
  castable (raw_title form) && castable (raw_content form) = false →
  ∃ raw,
    run (put_blogs_raw src env id form) s =
      (match src with
       | index_js => inr {| status := 500;
                            body := MessageError "Error updating blog"
                                                 (CastError raw) |}
       | part_000 => inl (CastError raw)
       end,
       put_disk (now env) (untext form) b s).
Proof.
  intros Hid Hb Hc.
  exists (match raw_title form, raw_content form with
          | Some (Structured raw), _ => raw
          | _, Some (Structured raw) => raw
          | _, _ => ""
          end).
  unfold run, put_blogs_raw, put_disk, untext. cbn [form_image].
  unfold mbind at 1. unfold M_bind at 1. rewrite upload_single_run.
  destruct form as [[[t|r]|] [[c|r']|] [file|]]; try discriminate Hc;
    cbn [raw_title raw_content raw_image]; unfold guarded;
    destruct src; unfold try_catch, mbind, M_bind, findById;
    rewrite Hid; simpl; rewrite Hb; simpl;
    rewrite ?remove_image_run; fold (after_remove (Blog.image b)); done.
Qed.

Lemma media_post_blogs_raw src env form s :
  media_ok s → fresh_upload (now env) (raw_image form) s →
  media_ok (run (post_blogs_raw src env form) s).2.
Proof.
  intros Hm Hfresh.
  destruct (castable (raw_title form) && castable (raw_content form)) eqn:Hc.
  - rewrite <- (text_form_untext form Hc), post_blogs_raw_text.
    by apply media_post_blogs.
  - rewrite post_blogs_raw_refused by done. by apply media_after_upload.
Qed.

Lemma media_post_events_raw env form s :
  media_ok s → fresh_upload (now env) (raw_event_image form) s →
  media_ok (run (post_events_raw env form) s).2.
Proof.
  intros Hm Hfresh.
  destruct (castable (raw_event_title form) && castable (raw_event_time form))
    eqn:Hc.
  - rewrite <- (text_event_form_untext form Hc), post_events_raw_text.
    by apply media_post_events.
  - rewrite post_events_raw_refused by done. by apply media_after_upload.
Qed.

Lemma media_put_blogs_raw src env id form s :
  media_ok s → fresh_upload (now env) (raw_image form) s →
  castable (raw_title form) && castable (raw_content form) = true
  ∨ raw_image form = None →
  media_ok (run (put_blogs_raw src env id form) s).2.
Proof.
  intros Hm Hfresh Hcase.
  destruct (castable (raw_title form) && castable (raw_content form)) eqn:Hc.
  - rewrite <- (text_form_untext form Hc), put_blogs_raw_text.
    by apply media_put_blogs.
  - destruct Hcase as [|Hfile]; [done|].
    destruct (castObjectId id) as [i|] eqn:Hid.
    + destruct (find_by_id Blog._id i (blogs s)) as [b|] eqn:Hb.
      * destruct (put_blogs_raw_refused src env s id i b form Hid Hb Hc)
          as [raw ->].
        unfold put_disk, untext. cbn [form_image snd]. by rewrite Hfile.
      * unfold run, put_blogs_raw. rewrite Hfile.
        unfold guarded; destruct src; unfold try_catch, mbind, M_bind, findById,
          upload_single; rewrite Hid; simpl; by rewrite Hb.
    + unfold run, put_blogs_raw. rewrite Hfile.
      unfold guarded; destruct src; unfold try_catch, mbind, M_bind, findById,
        upload_single; by rewrite Hid.
Qed.

(** X11.  Suppose that no two stored records refer to the same image
    file and that every image referred to is on disk, and that the name
    multer gives to a file that comes with the request is not yet taken
    on disk.  Then the same holds after a post or an event is created or
    deleted, whether the request succeeds or fails, and after a post is
    updated with a form whose title and content Mongoose can cast, or
    without a new image.  It does not hold after the remaining update:
    when the form brings a new image and a title or content that cannot
    be cast (a part named [title[a]], say), the old image of the stored
    post is removed before [save()] is refused, and the record, which is
    not changed, names a file that is gone. *)
Theorem media_stay_consistent (s : Server) :
  media_ok s →
  (∀ src env form, fresh_upload (now env) (raw_image form) s →
     media_ok (run (post_blogs_raw src env form) s).2)
  ∧ (∀ src env id form, fresh_upload (now env) (raw_image form) s →
       castable (raw_title form) && castable (raw_content form) = true
       ∨ raw_image form = None →
       media_ok (run (put_blogs_raw src env id form) s).2)
  ∧ (∀ src id, media_ok (run (delete_blogs src id) s).2)
  ∧ (∀ env form, fresh_upload (now env) (raw_event_image form) s →
       media_ok (run (post_events_raw env form) s).2)
  ∧ (∀ id, media_ok (run (delete_events id) s).2)
  ∧ (∀ src env id i b form file,
       castObjectId id = Some i →
       find_by_id Blog._id i (blogs s) = Some b →
       Blog.image b ≠ "" →
       raw_image form = Some file →
       castable (raw_title form) && castable (raw_content form) = false →
       let after := run (put_blogs_raw src env id form) s in
       (∃ raw, after.1 = match src with
                         | index_js =>
                             inr {| status := 500;
                                    body := MessageError "Error updating blog"
                                                         (CastError raw) |}
                         | part_000 => inl (CastError raw)
                         end)
       ∧ blogs after.2 = blogs s
       ∧ (Blog.image b ∉ files after.2)
       ∧ ¬ media_ok after.2).
Proof.
  intros Hm.
  split; [intros; by apply media_post_blogs_raw|].
  split; [intros; by apply media_put_blogs_raw|].
  split; [intros; by apply media_delete_blogs|].
  split; [intros; by apply media_post_events_raw|].
  split; [intros; by apply media_delete_events|].
  intros src env id i b form file Hid Hb Himg Hfile Hc after. subst after.
  destruct (put_blogs_raw_refused src env s id i b form Hid Hb Hc) as [raw ->].
  cbn [fst snd]. unfold put_disk, untext. cbn [form_image]. rewrite Hfile.
  destruct (find_by_id_Some Blog._id i (blogs s) b Hb) as [_ Hin].
  assert (Hdisk : Blog.image b ∈ files s).
  { destruct Hm as [_ Hon]. apply Hon; [|done]. unfold images.
    apply elem_of_app. left. by apply list_elem_of_fmap_2. }
  assert (Hgone : Blog.image b ∉
            files (after_remove (Blog.image b)
                     (with_file ("uploads/" +:+ filename (now env) file) s))).
  { unfold after_remove, with_file. cbn [files].
    rewrite (proj2 (truthy_true _) Himg).
    rewrite bool_decide_eq_true_2 by (by apply elem_of_union_r).
    cbn [andb without files]. intros [_ Hne]%elem_of_difference.
    apply Hne. by apply elem_of_singleton_2. }
  split; [by exists raw|].
  split; [by rewrite after_remove_blogs|].
  split; [done|].
  intros [_ Hon]. apply Hgone. apply Hon; [|done]. unfold images.
  apply elem_of_app. left. rewrite after_remove_blogs. cbn [with_file blogs].
  by apply list_elem_of_fmap_2.
Qed.

Lemma media_stay_consistent_witness :
  media_ok sample_blog_server
  ∧ media_ok (run (put_blogs_raw index_js sample_env sample_blog_id
                     (text_form sample_form)) sample_blog_server).2
  ∧ ¬ media_ok (run (put_blogs_raw index_js sample_env sample_blog_id
                       nested_title_form) sample_blog_server).2.
Proof.
  assert (Hm : media_ok sample_blog_server).
  { split.
    - apply (bool_decide_unpack _). vm_compute. exact I.
    - intros p Hp Hne. unfold sample_blog_server, images in Hp. simpl in Hp.
      apply list_elem_of_singleton in Hp as ->.
      unfold sample_blog_server. simpl. by apply elem_of_singleton_2. }
  split; [exact Hm|].
  destruct (media_stay_consistent sample_blog_server Hm)
    as (_ & Hput & _ & _ & _ & Hbreak).
  split.
  - apply Hput; [|by left]. simpl. apply (bool_decide_unpack _). vm_compute. exact I.
  - by destruct (Hbreak index_js sample_env sample_blog_id sample_blog_oid
                   sample_blog nested_title_form sample_upload)
      as (_ & _ & _ & Hno).
Defined.

(** ** Events: deleting, creating, listing *)

(** X12.  Deleting a stored event answers 204 and removes exactly that
    record and its image: the collection is one shorter, every other
    event is found as before, posts and registrations are as they were,
    and of the files only the image of the event, if it has one, is
    gone, so that no file is at that path afterwards.  With ids unique in
    the collection the event is no longer found and a second delete of
    the same id is answered 404 and changes nothing. *)
Theorem delete_event_removes_record_and_file
    (s : Server) (id : string) (i : ObjectId) (e : Event.t) :
  castObjectId id = Some i →
  find_by_id Event._id i (events s) = Some e →
  let d := run (delete_events id) s in
  d.1 = inr {| status := 204; body := Empty |}
  ∧ S (List.length (events d.2)) = List.length (events s)
  ∧ (∀ j, j ≠ i → find_by_id Event._id j (events d.2) = find_by_id Event._id j (events s))
  ∧ users d.2 = users s ∧ blogs d.2 = blogs s
  ∧ files d.2 = (if decide (Event.image e = "") then files s
                 else files s ∖ {[Event.image e]})
  ∧ (Event.image e ≠ "" → Event.image e ∉ files d.2)
  ∧ (unique_ids Event._id (events s) →
     find_by_id Event._id i (events d.2) = None
     ∧ run (delete_events id) d.2 =
         (inr {| status := 404; body := Error "Event not found" |}, d.2)).
Proof.
  intros Hid He d. subst d.
  rewrite (delete_events_found s id i e Hid He). cbn [fst snd].
  assert (Hev : events (after_remove (Event.image e) s) = events s)
    by (unfold after_remove; by destruct (_ && _)).
  split; [done|]. simpl. rewrite Hev, after_remove_blogs, after_remove_files.
  split; [by apply (delete_by_id_length Event._id i _ e)|].
  split; [intros j Hj; by apply find_by_id_delete_ne|].
  split; [unfold after_remove; by destruct (_ && _)|].
  split; [done|]. split; [done|]. split.
  { intros Hne. rewrite decide_False by done.
    rewrite elem_of_difference, elem_of_singleton. by intros [_ ?]. }
  intros Huniq.
  assert (Hgone : find_by_id Event._id i (delete_by_id Event._id i (events s)) = None)
    by (by apply find_by_id_delete).
  split; [done|].
  unfold run, delete_events, try_catch, mbind, M_bind, findById.
  rewrite Hid. simpl. rewrite Hev, Hgone. done.
Qed.

Lemma delete_event_removes_record_and_file_witness :
  let s := mkServer [] [] [Event.mk sample_oid (Some "Picnic") (Some 5) None
                                    "uploads/5.png"]
                    {[ "uploads/5.png" ]} in
  run (delete_events sample_id) s
  = (inr {| status := 204; body := Empty |},
     mkServer [] [] [] ({[ "uploads/5.png" ]} ∖ {[ "uploads/5.png" ]})).
Proof.
  intros s.
  destruct (delete_event_removes_record_and_file s sample_id sample_oid
              (Event.mk sample_oid (Some "Picnic") (Some 5) None "uploads/5.png"))
    as (H204 & _); [vm_compute; reflexivity ..|].
  rewrite (surjective_pairing (run (delete_events sample_id) s)), H204.
  f_equal.
Defined.

Lemma post_events_stored env form s d :
  find_by_id Event._id (newId env) (events s) = None →
  event_date form = match d with Some ms => DateAt ms | None => NoDate end →
  run (post_events env form) s =
    (inr {| status := 201; body := OneEvent (new_event env form d) |},
     set_events (λ c, (c ++ [new_event env form d])%list)
                (after_upload (now env) (event_image form) s)).
Proof.
  intros Hfree Hdate.
  unfold run, post_events, new_event, new_image, after_upload.
  unfold mbind at 1. unfold M_bind at 1. rewrite upload_single_run.
  destruct (event_image form) as [file|];
    unfold try_catch, mbind, M_bind, save_new_event, insert; rewrite Hdate;
    destruct d; simpl; by rewrite Hfree.
Qed.

Lemma get_events_run env s :
  run (get_events env) s =
    (inr {| status := 200;
            body := EventList (merge_sort date_le
                                 (List.filter (date_gte (now env)) (events s))) |},
     s).
Proof. done. Qed.

(** X13.  An event whose date can be cast (or that has none) and whose
    drawn id is free is answered 201 and stored after the events already
    there, whatever its date: a date in the past is accepted.  A later
    GET /api/events lists it exactly when it has a date that is not
    before the time of that listing; an event without a date is never
    listed. *)
Theorem create_event_then_list
    (env : Env) (form : EventForm) (d : option Z) (s : Server) :
  find_by_id Event._id (newId env) (events s) = None →
  event_date form = match d with Some ms => DateAt ms | None => NoDate end →
  let after := run (post_events env form) s in
  ∃ e,
    after.1 = inr {| status := 201; body := OneEvent e |}
    ∧ events after.2 = (events s ++ [e])%list
    ∧ Event._id e = newId env ∧ Event.date e = d
    ∧ Event.title e = event_title form ∧ Event.time e = event_time form
    ∧ ∀ env', ∃ listed,
        run (get_events env') after.2 =
          (inr {| status := 200; body := EventList listed |}, after.2)
        ∧ (e ∈ listed ↔ ∃ ms, d = Some ms ∧ now env' ≤ ms).
Proof.
  intros Hfree Hdate after. subst after.
  rewrite (post_events_stored env form s d Hfree Hdate).
  exists (new_event env form d). cbn [fst snd].
  assert (Hevents : events (set_events (λ c, (c ++ [new_event env form d])%list)
                              (after_upload (now env) (event_image form) s))
                    = (events s ++ [new_event env form d])%list).
  { unfold after_upload. by destruct (event_image form). }
  split; [done|]. split; [done|]. split; [done|]. split; [done|].
  split; [done|]. split; [done|].
  intros env'. eexists. split; [apply get_events_run|].
  rewrite merge_sort_Permutation, list_elem_of_In, filter_In, date_gte_spec.
  rewrite Hevents, <- list_elem_of_In. split.
  - intros [_ (ms & Hms & Hle)]. by exists ms.
  - intros (ms & -> & Hle). split; [|by exists ms].
    apply elem_of_app. right. apply list_elem_of_here.
Qed.

Lemma create_event_then_list_witness :
  let form := {| event_title := Some "Vigil"; event_date := DateAt 1600000000000;
                 event_time := Some "10pm"; event_image := None |} in
  ∃ e, (run (post_events sample_env form) sample_server).1
         = inr {| status := 201; body := OneEvent e |}
       ∧ Event.date e = Some 1600000000000
       ∧ ∃ listed,
           run (get_events sample_env) (run (post_events sample_env form) sample_server).2
           = (inr {| status := 200; body := EventList listed |},
              (run (post_events sample_env form) sample_server).2)
           ∧ e ∉ listed.
Proof.
  intros form.
  destruct (create_event_then_list sample_env form (Some 1600000000000) sample_server)
    as (e & Hr & _ & _ & Hd & _ & _ & Hlist); [reflexivity ..|].
  exists e. split; [exact Hr|]. split; [exact Hd|].
  destruct (Hlist sample_env) as (listed & Hrun & Hin).
  exists listed. split; [exact Hrun|].
  intros He. apply Hin in He as (ms & [= <-] & Hle). simpl in Hle. lia.
Defined.

(** X14.  An event whose date cannot be cast is answered 400 and no
    event is stored; a file that came with the request has already been
    written by multer and stays on disk, referred to by nothing. *)
Theorem event_with_bad_date_is_refused
    (env : Env) (form : EventForm) (raw : string) (s : Server) :
  event_date form = BadDate raw →
  let after := run (post_events env form) s in
  after.1 = inr {| status := 400;
                   body := MessageError "Error creating event" (CastError raw) |}
  ∧ events after.2 = events s ∧ blogs after.2 = blogs s ∧ users after.2 = users s
  ∧ files after.2 = match event_image form with
                    | Some file => {[ "uploads/" +:+ filename (now env) file ]} ∪ files s
                    | None => files s
                    end.
Proof.
  intros Hdate after. subst after.
  unfold run, post_events.
  unfold mbind at 1. unfold M_bind at 1. rewrite upload_single_run.
  destruct (event_image form) as [file|];
    unfold try_catch, mbind, M_bind, throw; by rewrite Hdate.
Qed.

Lemma event_with_bad_date_is_refused_witness :
  files (run (post_events sample_env
                {| event_title := Some "Vigil"; event_date := BadDate "soon";
                   event_time := None; event_image := Some sample_upload |})
             sample_server).2
  = {[ "uploads/1700000500000.png" ]} ∪ files sample_server.
Proof.
  apply (event_with_bad_date_is_refused sample_env
           {| event_title := Some "Vigil"; event_date := BadDate "soon";
              event_time := None; event_image := Some sample_upload |} "soon"
           sample_server).
  reflexivity.
Defined.

(** ** More on the subscription *)

(** The bodies that count as having no email. *)
Lemma falsy_email_iff req_body :
  falsy (member "email" req_body) = true
  ↔ member "email" req_body = None
    ∨ member "email" req_body = Some JNull
    ∨ member "email" req_body = Some (JBool false)
    ∨ member "email" req_body = Some (JNumber 0)
    ∨ member "email" req_body = Some (JString "").
Proof.
  destruct (member "email" req_body) as [[|[]|[]|str| |]|]; simpl;
    try (split; [intros; discriminate | intros [H|[H|[H|[H|H]]]]; discriminate]);
    try (split; [tauto | done]).
  destruct (String.eqb_spec str ""); subst; split; try tauto; try done.
  intros [H|[H|[H|[H|H]]]]; congruence.
Qed.

(** X15.  A subscribe call whose body has no email, or has [null], the
    empty string, [0] or [false] for it, is answered 400 and the
    provider plays no part in it: the outcome is the same whatever the
    provider would have replied, and the stores are untouched. *)
Theorem subscribe_without_email
    (src : Source) (cfg : Config) (req_body : json) (s : Server) :
  member "email" req_body = None
  ∨ member "email" req_body = Some JNull
  ∨ member "email" req_body = Some (JBool false)
  ∨ member "email" req_body = Some (JNumber 0)
  ∨ member "email" req_body = Some (JString "") →
  ∀ provider,
    run (post_subscribe src cfg provider req_body) s =
      (inr {| status := 400; body := Message "Email is required" |}, s).
Proof.
  intros H provider. apply post_subscribe_no_email. by apply falsy_email_iff.
Qed.

Lemma subscribe_without_email_witness :
  run (post_subscribe index_js sample_config (λ _, Replied 200 JNull)
         (JObject [("email", JString "")])) sample_server
  = (inr {| status := 400; body := Message "Email is required" |}, sample_server).
Proof.
  apply (subscribe_without_email index_js sample_config
           (JObject [("email", JString "")]) sample_server).
  do 4 right. reflexivity.
Defined.

Lemma settle_final n r s : settle n r s = (final n r, s).
Proof.
  revert n. induction r as [st d| |st target IH]; intros n; cbn [settle final].
  - by destruct (_ && _).
  - done.
  - destruct n; [done | apply IH].
Qed.

Lemma final_2xx n r resp :
  final n r = inr resp → 200 ≤ response_status resp < 300.
Proof.
  revert n. induction r as [st d| |st target IH]; intros n; cbn [final].
  - destruct ((200 <=? st) && (st <? 300)) eqn:Hrange; [|done].
    intros [= <-]. simpl.
    apply andb_true_iff in Hrange as [?%Z.leb_le ?%Z.ltb_lt]. done.
  - done.
  - destruct n; [done | apply IH].
Qed.

Lemma post_subscribe_run src cfg provider req_body email s :
  member "email" req_body = Some email → falsy (Some email) = false →
  run (post_subscribe src cfg provider req_body) s =
    (inr match final maxRedirects (provider (subscribe_request src cfg email)) with
         | inr _ => {| status := 200; body := Message "Subscription successful" |}
         | inl e => {| status := 500;
                       body := MessageError "Error subscribing to Mailchimp" e |}
         end, s).
Proof.
  intros Hm He. unfold run, post_subscribe. rewrite Hm, He.
  unfold try_catch, mbind, M_bind, axios_post. simpl.
  fold (subscribe_request src cfg email). rewrite settle_final.
  destruct (final maxRedirects _) as [e|resp] eqn:Hf; [done|].
  apply final_2xx in Hf as [Hlo%Z.leb_le Hhi%Z.ltb_lt]. by rewrite Hlo, Hhi.
Qed.

(** X16.  Whatever the body and whatever comes back from the provider (a
    reply with any status, redirects, or no reply at all), a subscribe
    call is answered, with 200, 400 or 500, and changes nothing in the
    stores.  It is answered 200 exactly when the body has an email and
    the reply axios settles on, after following the redirects up to
    [maxRedirects], has a status from 200 to 299: a first reply of 302 that leads to a
    200 is answered 200.  It is answered 500 when no reply arrives. *)
Theorem subscribe_always_answers
    (src : Source) (cfg : Config) (provider : AxiosRequest → Reply)
    (req_body : json) (s : Server) :
  ∃ r, run (post_subscribe src cfg provider req_body) s = (inr r, s)
       ∧ (status r = 200 ∨ status r = 400 ∨ status r = 500)
       ∧ (status r = 200 ↔
          ∃ email resp,
            member "email" req_body = Some email ∧ falsy (Some email) = false
            ∧ final maxRedirects (provider (subscribe_request src cfg email)) = inr resp
            ∧ 200 ≤ response_status resp < 300)
       ∧ (∀ email d,
            member "email" req_body = Some email → falsy (Some email) = false →
            provider (subscribe_request src cfg email)
              = Redirect 302 (Replied 200 d) →
            status r = 200)
       ∧ (falsy (member "email" req_body) = false →
          (∀ req, provider req = NoReply) →
          r = {| status := 500;
                 body := MessageError "Error subscribing to Mailchimp" AxiosNetwork |}).
Proof.
  destruct (falsy (member "email" req_body)) eqn:Hf.
  { rewrite (post_subscribe_no_email src cfg provider req_body s Hf).
    eexists. split; [done|]. simpl. split; [tauto|]. split.
    - split; [discriminate|]. intros (email & resp & Hm & He & _).
      rewrite Hm in Hf. simpl in Hf, He. congruence.
    - split; [|done]. intros email d Hm He.
      rewrite Hm in Hf. simpl in Hf, He. congruence. }
  destruct (member "email" req_body) as [email|] eqn:Hm; [|done].
  rewrite (post_subscribe_run src cfg provider req_body email s Hm Hf).
  eexists. split; [done|].
  destruct (final maxRedirects (provider (subscribe_request src cfg email)))
    as [e|resp] eqn:Hfinal; simpl.
  - split; [tauto|]. split.
    + split; [discriminate|]. intros (email' & resp & [= <-] & _ & Hr & _).
      congruence.
    + split.
      * intros email' d [= <-] _ Hp. rewrite Hp in Hfinal. discriminate.
      * intros _ Hno. rewrite Hno in Hfinal. by injection Hfinal as <-.
  - split; [tauto|]. split.
    + split; [|done]. intros _. exists email, resp.
      split; [done|]. split; [done|]. split; [done|]. by apply (final_2xx maxRedirects _ _ Hfinal).
    + split; [done|]. intros _ Hno. by rewrite Hno in Hfinal.
Qed.

(** ** Every route of [src/index.js] answers *)





(** ** Which requests reach which callback *)

(** X18.  [src/unnamed/part_000] registers the front end's files, the
    uploads and [app.get('*')] (lines 25-32) before every route of the
    API.  So each GET or HEAD request, those to /api/register,
    /api/blogs, /api/blogs/main, /api/blogs/search and /api/blogs/:id
    among them, is answered by [express.static] or with the page of the
    front end: no callback of the API runs and the stores stay as they
    are. *)
Theorem part_000_reads_never_reach_the_api
    (env : Env) (cfg : Config) (provider : AxiosRequest → Reply)
    (lookup : Lookup) (req : Request) (s : Server) :
  is_read (req_method req) = true →
  ∃ a, serve part_000 env cfg provider lookup req s = Some (inr a, s)
       ∧ (a = IndexPage ∨ ∃ p, a = StaticFile p).
Proof.
  intros Hread. rewrite serve_part_000_read by done.
  eexists. split; [reflexivity|].
  destruct (lookup "frontend/dist" (req_path req)) as [p|]; [right; by exists p|].
  destruct (under ["uploads"] (req_path req) ≫= lookup "uploads") as [p|];
    [right; by exists p | by left].
Qed.

Lemma part_000_reads_never_reach_the_api_witness :
  ∃ a, serve part_000 sample_env sample_config silent_provider no_static_file
         main_request foo_server = Some (inr a, foo_server)
       ∧ (a = IndexPage ∨ ∃ p, a = StaticFile p).
Proof.
  apply (part_000_reads_never_reach_the_api sample_env sample_config
           silent_provider no_static_file main_request foo_server).
  reflexivity.
Defined.

(** X19.  [src/index.js] has no route for /api/blogs/main or
    /api/blogs/search: a GET request to either is taken by
    /api/blogs/:id with the word as the id, which Mongoose cannot cast,
    and is answered 500; the stores stay as they are. *)
Theorem index_js_takes_main_and_search_as_ids :
  ∀ env cfg provider lookup q pg payload s,
    serve index_js env cfg provider lookup
      (Build_Request GET ["api"; "blogs"; "main"] q pg payload) s
    = Some (inr (Handled {| status := 500;
                            body := MessageError "Error fetching blog"
                                      (CastError "main") |}), s)
    ∧ serve index_js env cfg provider lookup
        (Build_Request GET ["api"; "blogs"; "search"] q pg payload) s
      = Some (inr (Handled {| status := 500;
                              body := MessageError "Error fetching blog"
                                        (CastError "search") |}), s).
Proof. intros. split; reflexivity. Qed.

(** X24.  In [src/index.js] each request to a route of the API reaches
    the callback registered for it, whatever [express.static] finds: the
    answer and the stores are those of the callback. *)
Theorem index_js_requests_reach_their_callbacks
    (env : Env) (cfg : Config) (provider : AxiosRequest → Reply)
    (lookup : Lookup) (q : option string) (pg : PageQuery) (s : Server)
    (id : string) :
  id ≠ "" →
  let on m path payload :=
    serve index_js env cfg provider lookup (Build_Request m path q pg payload) s in
  (∀ b, on POST ["api"; "register"] (Registration b)
        = Some (answered Handled (run (post_register env b) s)))
  ∧ (∀ payload, on GET ["api"; "register"] payload
                = Some (answered UsersListed (get_register s)))
  ∧ (∀ j, on PATCH ["api"; "register"; id] (JsonBody j)
          = Some (answered Handled (run (patch_register id j) s)))
  ∧ (∀ f, on POST ["api"; "blogs"] (BlogFormData f)
          = Some (answered Handled (run (post_blogs_raw index_js env f) s)))
  ∧ (∀ payload, on GET ["api"; "blogs"] payload
                = Some (answered BlogsListed (get_blogs index_js s)))
  ∧ (∀ payload, on GET ["api"; "blogs"; id] payload
                = Some (answered Handled (run (get_blog index_js id) s)))
  ∧ (∀ payload, on DELETE ["api"; "blogs"; id] payload
                = Some (answered Handled (run (delete_blogs index_js id) s)))
  ∧ (∀ f, on PUT ["api"; "blogs"; id] (BlogFormData f)
          = Some (answered Handled (run (put_blogs_raw index_js env id f) s)))
  ∧ (∀ j, on POST ["api"; "subscribe"] (JsonBody j)
          = Some (answered Handled (run (post_subscribe index_js cfg provider j) s)))
  ∧ (∀ f, on POST ["api"; "events"] (EventFormData f)
          = Some (answered Handled (run (post_events_raw env f) s)))
  ∧ (∀ payload, on GET ["api"; "events"] payload
                = Some (answered Handled (run (get_events env) s)))
  ∧ (∀ payload, on DELETE ["api"; "events"; id] payload
                = Some (answered Handled (run (delete_events id) s))).
Proof.
  intros Hid on. subst on. cbv beta.
  destruct id as [|c id]; [done|].
  repeat match goal with |- _ ∧ _ => split end; intros;
    rewrite <- ?handled_run, <- ?handled_listing; reflexivity.
Qed.

Lemma index_js_requests_reach_their_callbacks_witness :
  serve index_js sample_env sample_config silent_provider no_static_file
    (Build_Request DELETE ["api"; "blogs"; sample_blog_id] None
       {| page := None; limit := None |} NoPayload) sample_blog_server
  = Some (answered Handled
            (run (delete_blogs index_js sample_blog_id) sample_blog_server)).
Proof.
  destruct (index_js_requests_reach_their_callbacks sample_env sample_config
              silent_provider no_static_file None
              {| page := None; limit := None |} sample_blog_server
              sample_blog_id)
    as (_ & _ & _ & _ & _ & _ & H & _); [done|].
  exact (H NoPayload).
Defined.

(** X25.  In [src/unnamed/part_000] the requests that are not GET or
    HEAD pass the catch-all: those to the six routes that write reach
    their callbacks.  POST /api/subscribe is taken by the first of its
    two registrations, the one that calls the [us14] data centre; the
    second is never reached.  The file has no route for events: POST
    /api/events and DELETE /api/events/:id find no route. *)
Theorem part_000_writes_reach_their_callbacks
    (env : Env) (cfg : Config) (provider : AxiosRequest → Reply)
    (lookup : Lookup) (q : option string) (pg : PageQuery) (s : Server)
    (id : string) :
  id ≠ "" →
  let on m path payload :=
    serve part_000 env cfg provider lookup (Build_Request m path q pg payload) s in
  (∀ b, on POST ["api"; "register"] (Registration b)
        = Some (answered Handled (run (post_register env b) s)))
  ∧ (∀ j, on PATCH ["api"; "register"; id] (JsonBody j)
          = Some (answered Handled (run (patch_register id j) s)))
  ∧ (∀ j, on POST ["api"; "subscribe"] (JsonBody j)
          = Some (answered Handled (run (post_subscribe part_000 cfg provider j) s)))
  ∧ (∀ f, on POST ["api"; "blogs"] (BlogFormData f)
          = Some (answered Handled (run (post_blogs_raw part_000 env f) s)))
  ∧ (∀ payload, on DELETE ["api"; "blogs"; id] payload
                = Some (answered Handled (run (delete_blogs part_000 id) s)))
  ∧ (∀ f, on PUT ["api"; "blogs"; id] (BlogFormData f)
          = Some (answered Handled (run (put_blogs_raw part_000 env id f) s)))
  ∧ (∀ payload, on POST ["api"; "events"] payload = Some (inr NoRoute, s))
  ∧ (∀ payload, on DELETE ["api"; "events"; id] payload = Some (inr NoRoute, s)).
Proof.
  intros Hid on. subst on. cbv beta.
  destruct id as [|c id]; [done|].
  repeat match goal with |- _ ∧ _ => split end; intros;
    rewrite <- ?handled_run; reflexivity.
Qed.

Lemma part_000_writes_reach_their_callbacks_witness :
  serve part_000 sample_env sample_config silent_provider no_static_file
    (Build_Request DELETE ["api"; "blogs"; sample_blog_id] None
       {| page := None; limit := None |} NoPayload) sample_blog_server
  = Some (answered Handled
            (run (delete_blogs part_000 sample_blog_id) sample_blog_server)).
Proof.
  destruct (part_000_writes_reach_their_callbacks sample_env sample_config
              silent_provider no_static_file None
              {| page := None; limit := None |} sample_blog_server
              sample_blog_id)
    as (_ & _ & _ & _ & H & _); [done|].
  exact (H NoPayload).
Defined.

(** ** The names multer gives *)

Lemma append_nil (s : string) : "" +:+ s = s.
Proof. done. Qed.

Lemma append_cons c (a b : string) : String c a +:+ b = String c (a +:+ b).
Proof. done. Qed.

Lemma length_append (a b : string) :
  String.length (a +:+ b) = (String.length a + String.length b)%nat.
Proof.
  induction a as [|c a IH]; [done|].
  rewrite append_cons. simpl. by rewrite IH.
Qed.

Lemma append_inj_same_length (a1 a2 e1 e2 : string) :
  String.length e1 = String.length e2 →
  a1 +:+ e1 = a2 +:+ e2 → a1 = a2 ∧ e1 = e2.
Proof.
  intros Hlen. revert a2. induction a1 as [|c a1 IH]; intros [|c' a2] Heq.
  - by rewrite !append_nil in Heq.
  - rewrite append_nil in Heq. rewrite Heq, append_cons in Hlen.
    simpl in Hlen. rewrite length_append in Hlen. lia.
  - rewrite append_nil in Heq. rewrite <- Heq, append_cons in Hlen.
    simpl in Hlen. rewrite length_append in Hlen. lia.
  - rewrite !append_cons in Heq. injection Heq as -> Heq.
    destruct (IH a2 Heq) as [-> ->]. done.
Qed.

Lemma append_inv_head (p a b : string) : p +:+ a = p +:+ b → a = b.
Proof.
  induction p as [|c p IH]; [by rewrite !append_nil|].
  rewrite !append_cons. intros [= H]. by apply IH.
Qed.

(** X22.  The path of an upload determines the clock reading it was
    named from: two uploads whose extensions have the same length get
    the same path only if they were named at the same millisecond and
    have the same extension.  Uploads named at different milliseconds
    never take each other's place on disk. *)
Theorem upload_paths_differ_with_the_clock (t1 t2 : Z) (f1 f2 : Upload) :
  String.length (extname_originalname f1) = String.length (extname_originalname f2) →
  "uploads/" +:+ filename t1 f1 = "uploads/" +:+ filename t2 f2 →
  t1 = t2 ∧ extname_originalname f1 = extname_originalname f2.
Proof.
  intros Hlen Heq. apply append_inv_head in Heq.
  unfold filename in Heq.
  destruct (append_inj_same_length _ _ _ _ Hlen Heq) as [Ht He].
  split; [by apply (inj pretty) | done].
Qed.

Lemma upload_paths_differ_with_the_clock_witness :
  (1700000500000 : Z) = 1700000500000
  ∧ extname_originalname sample_upload = ".png".
Proof.
  apply (upload_paths_differ_with_the_clock 1700000500000 1700000500000
           sample_upload {| extname_originalname := ".png" |});
    reflexivity.
Defined.

(** ** Unique ids, for every route *)



